(** * Faraday vulnerability API: the filter layer of [VulnerabilityView]

    A shallow embedding of the parts of
    [faraday/server/api/modules/vulns.py] that rewrite filter trees,
    synthesise the filtered query, normalise grouped counts, dispatch bulk
    deletion and store attachments, followed by the properties that the
    specification states about them.

    Python dicts whose keys the code reads by name are records of optional
    entries (an absent key is [None]); dicts used as maps are [gmap]s.
    Exceptions and the accesses to the database session are threaded through
    a small writer/error monad. *)

From Stdlib Require Import ZArith Ascii String List Bool Lia.
From stdpp Require Import base option list strings gmap.

Local Open Scope string_scope.
Local Open Scope list_scope.

#[local] Set Warnings "-register-all".

(** ** Python values *)

Module Py.

(** JSON-shaped Python values (floats are not needed by any path below). *)
Inductive pyval : Type :=
| PNone
| PBool (b : bool)
| PInt (z : Z)
| PStr (s : string)
| PList (l : list pyval)
| PDict (kvs : list (string * pyval)).

(** [bool(v)]: the truth value Python gives to [v] in an [if]. *)
Definition truthy (v : pyval) : bool :=
  match v with
  | PNone => false
  | PBool b => b
  | PInt z => negb (z =? 0)%Z
  | PStr s => negb (String.eqb s EmptyString)
  | PList l => match l with [] => false | _ => true end
  | PDict kvs => match kvs with [] => false | _ => true end
  end.

(** [v == 'literal'] for a string literal. *)
Definition eq_str (v : pyval) (lit : string) : bool :=
  match v with
  | PStr s => String.eqb s lit
  | _ => false
  end.

(** [d.get(key)] on an optional entry: an absent key reads as [None]. *)
Definition get (entry : option pyval) : pyval := default PNone entry.

End Py.
Export Py.

(** ** Filter trees and [_hostname_filters] *)

(** One element of a filter list: a dict of which the code reads the keys
    [name], [op], [val], [field], [or] and [and]; [n_other] holds the
    entries under any other key. *)
Inductive node : Type :=
  Node {
    n_name : option pyval;
    n_op : option pyval;
    n_val : option pyval;
    n_field : option pyval;
    n_or : option (list node);
    n_and : option (list node);
    n_other : list (string * pyval)
  }.

(** [{"name": .., "op": .., "val": ..}], with ["field"] when given. *)
Definition leaf (name op val : pyval) (field : option pyval) : node :=
  Node (Some name) (Some op) (Some val) field None None [].

(** [{"or": children}] and [{"and": children}]. *)
Definition or_group (children : list node) : node :=
  Node None None None None (Some children) None [].

Definition and_group (children : list node) : node :=
  Node None None None None None (Some children) [].

(** The dict [field_filter] rebuilt from a leaf (lines 805-816). *)
Definition field_filter (search_filter : node) : node :=
  let fieldname := get (n_name search_filter) in
  let operator := get (n_op search_filter) in
  let argument := get (n_val search_filter) in
  let otherfield := get (n_field search_filter) in
  leaf fieldname operator argument
       (if truthy otherfield then Some otherfield else None).

(** [fieldname == 'hostnames'] *)
Definition is_hostnames (search_filter : node) : bool :=
  eq_str (get (n_name search_filter)) "hostnames".

(** A list is true in an [if] when it is not empty. *)
Definition nonempty {A} (l : list A) : bool :=
  match l with [] => false | _ => true end.

(** One iteration of the loop of [_hostname_filters] on the accumulators
    [(res_filters, hostname_filters)]; the recursive calls run the same loop
    on the children from empty accumulators. *)
Fixpoint visit (search_filter : node) (acc : list node * list node)
  {struct search_filter} : list node * list node :=
  let '(res_filters, hostname_filters) := acc in
  match search_filter with
  | Node _ _ _ _ None None _ =>
      let field_filter := field_filter search_filter in
      if is_hostnames search_filter
      then (res_filters, hostname_filters ++ [field_filter])
      else (res_filters ++ [field_filter], hostname_filters)
  | Node _ _ _ _ (Some children) _ _ =>
      let '(or_filters, deep_hostname_filters) :=
        fold_left (fun a x => visit x a) children ([], []) in
      ((if nonempty or_filters
        then res_filters ++ [or_group or_filters] else res_filters),
       hostname_filters ++ deep_hostname_filters)
  | Node _ _ _ _ None (Some children) _ =>
      let '(and_filters, deep_hostname_filters) :=
        fold_left (fun a x => visit x a) children ([], []) in
      ((if nonempty and_filters
        then res_filters ++ [and_group and_filters] else res_filters),
       hostname_filters ++ deep_hostname_filters)
  end.

Definition _hostname_filters (filters : list node) : list node * list node :=
  fold_left (fun a x => visit x a) filters ([], []).

(** *** The specification's reading of the rewrite *)

(** The leaf predicates of a tree, left to right.  A dict carrying both
    group keys is read as the code reads it, through ["or"]. *)
Fixpoint leaves_of (n : node) : list node :=
  match n with
  | Node _ _ _ _ None None _ => [n]
  | Node _ _ _ _ (Some children) _ _ => flat_map leaves_of children
  | Node _ _ _ _ None (Some children) _ => flat_map leaves_of children
  end.

Definition leaves (tree : list node) : list node := flat_map leaves_of tree.

(** The rebuilt [hostnames] leaves of a node and of a tree, in order, one
    for each occurrence; and the rebuilt leaves of a tree that are not. *)
Definition extracted_of (n : node) : list node :=
  List.filter is_hostnames (map field_filter (leaves_of n)).

Definition extracted (tree : list node) : list node :=
  List.filter is_hostnames (map field_filter (leaves tree)).

Definition kept_leaves (tree : list node) : list node :=
  List.filter (fun n => negb (is_hostnames n)) (map field_filter (leaves tree)).

(** Spec 4.1: the tree with every [hostnames] leaf removed, the and/or
    structure kept, and a group left out when nothing remains under it. *)
Fixpoint strip_node (n : node) : list node :=
  match n with
  | Node _ _ _ _ None None _ =>
      if is_hostnames n then [] else [field_filter n]
  | Node _ _ _ _ (Some children) _ _ =>
      match flat_map strip_node children with
      | [] => []
      | kept => [or_group kept]
      end
  | Node _ _ _ _ None (Some children) _ =>
      match flat_map strip_node children with
      | [] => []
      | kept => [and_group kept]
      end
  end.

Definition strip_hostnames (tree : list node) : list node :=
  flat_map strip_node tree.

(** Trees in the shape the data model gives them: a leaf is exactly
    [{name, op, val}] with an optional true [field]; a group carries one of
    [or]/[and] and nothing else, over a non-empty list of such nodes. *)
Fixpoint plain_node (n : node) : bool :=
  match n with
  | Node (Some _) (Some _) (Some _) fld None None [] =>
      match fld with Some f => truthy f | None => true end
  | Node None None None None (Some children) None [] =>
      nonempty children && forallb plain_node children
  | Node None None None None None (Some children) [] =>
      nonempty children && forallb plain_node children
  | _ => false
  end.

Definition plain (tree : list node) : bool := forallb plain_node tree.

(** No leaf of the tree is a [hostnames] predicate. *)
Definition hostname_free (tree : list node) : bool :=
  forallb (fun n => negb (is_hostnames n)) (leaves tree).

(** The tree of the specification's worked example, and the two parts
    it is said to yield. *)
Definition example_tree : list node :=
  [or_group
     [leaf (PStr "hostnames") (PStr "==") (PStr "a.com") None;
      and_group [leaf (PStr "severity") (PStr "==") (PStr "high") None]]].

Definition example_rest : list node :=
  [or_group
     [and_group [leaf (PStr "severity") (PStr "==") (PStr "high") None]]].

Definition example_hostnames : list node :=
  [leaf (PStr "hostnames") (PStr "==") (PStr "a.com") None].

(** ** The database as the view sees it *)

(** Modelled from the spec: the mapped classes of [faraday.server.models]
    (not among the sources), reduced to the columns that the view reads
    (spec section 3): a vulnerability has a workspace and a Host or a Service
    as parent, a service and a hostname belong to a host. *)
Record Workspace : Type := { ws_id : Z; ws_name : string }.
Record Host : Type := { h_id : Z; h_os : string }.
Record Service : Type := { s_id : Z; s_host_id : Z }.
Record Hostname : Type := { hn_name : string; hn_host_id : Z }.
Record Vuln : Type := {
  v_id : Z;
  v_workspace_id : Z;
  v_host_id : option Z;
  v_service_id : option Z;
  v_severity : string
}.

(** A row of [File]: an attachment of the object [f_object_id]. *)
Record File : Type := {
  f_object_id : Z;
  f_object_type : string;
  f_name : string;
  f_filename : string;
  f_content : string
}.

Record Database : Type := {
  db_workspaces : list Workspace;
  db_vulns : list Vuln;
  db_hosts : list Host;
  db_services : list Service;
  db_hostnames : list Hostname;
  db_files : list File
}.

#[global] Instance Vuln_eq_dec : EqDecision Vuln.
Proof. solve_decision. Defined.

(** The three entries of [model_class_dict]. *)
Inductive model_class : Type :=
| Vulnerability
| VulnerabilityWeb
| VulnerabilityGeneric.

(** *** Queries

    A query over vulnerabilities denotes its result rows, in order and with
    repetitions; a row carries the vulnerability that is selected and the
    rows of the tables joined so far, which later conditions may read. *)
Record row : Type := {
  r_vuln : Vuln;
  r_host : option Host;
  r_service : option Service;
  r_hostname : option Hostname
}.

Definition query : Type := list row.

Definition from_vulns (vs : list Vuln) : query :=
  map (fun v => Build_row v None None None) vs.

(** [q.filter(cond)] *)
Definition q_filter (cond : row -> bool) (q : query) : query :=
  List.filter cond q.

(** An inner join: one result row for each row of [table] that [on]
    relates to a row of [q]. *)
Definition inner_join {B} (table : list B) (on : row -> B -> bool)
    (bind : row -> B -> row) (q : query) : query :=
  flat_map (fun r => map (bind r) (List.filter (on r) table)) q.

Definition id_is (fk : option Z) (pk : Z) : bool :=
  match fk with Some i => (i =? pk)%Z | None => false end.

(** [q.join(Host)]: along the foreign key of the entity joined last, the
    service if there is one, else the vulnerability. *)
Definition join_Host (db : Database) (q : query) : query :=
  inner_join (db_hosts db)
    (fun r h => match r_service r with
                | Some s => (s_host_id s =? h_id h)%Z
                | None => id_is (v_host_id (r_vuln r)) (h_id h)
                end)
    (fun r h => Build_row (r_vuln r) (Some h) (r_service r) (r_hostname r)) q.

(** [q.join(Service)]: the services of the host joined last if there is
    one, else the service of the vulnerability. *)
Definition join_Service (db : Database) (q : query) : query :=
  inner_join (db_services db)
    (fun r s => match r_host r with
                | Some h => (s_host_id s =? h_id h)%Z
                | None => id_is (v_service_id (r_vuln r)) (s_id s)
                end)
    (fun r s => Build_row (r_vuln r) (r_host r) (Some s) (r_hostname r)) q.

(** [q.join(Hostname)]: the hostnames of the host joined last. *)
Definition join_Hostname (db : Database) (q : query) : query :=
  inner_join (db_hostnames db)
    (fun r hn => match r_host r with
                 | Some h => (hn_host_id hn =? h_id h)%Z
                 | None => false
                 end)
    (fun r hn => Build_row (r_vuln r) (r_host r) (r_service r) (Some hn)) q.

(** [q1.union(q2)]: SQL [UNION] of the selected vulnerability columns,
    which keeps one copy of each distinct row. *)
Definition q_union (q1 q2 : query) : query :=
  from_vulns (remove_dups (map r_vuln (q1 ++ q2))).

(** [column == value] on a text column: only an equal string matches. *)
Definition sql_eq (column : string) (value : pyval) : bool :=
  eq_str value column.

(** [Hostname.name == val], [Host.os == val] and [or_] over a list of
    conditions. *)
Definition Hostname_name_eq (val : pyval) (r : row) : bool :=
  match r_hostname r with
  | Some hn => sql_eq (hn_name hn) val
  | None => false
  end.

Definition Host_os_eq (val : pyval) (r : row) : bool :=
  match r_host r with Some h => sql_eq (h_os h) val | None => false end.

Definition or_ (conds : list (row -> bool)) (r : row) : bool :=
  existsb (fun c => c r) conds.

(** [VulnerabilityGeneric.workspace == workspace] *)
Definition in_workspace (workspace : Workspace) (r : row) : bool :=
  (v_workspace_id (r_vuln r) =? ws_id workspace)%Z.

(** Spec 4.2, step 3: a host one of whose hostnames equals one of the
    values; a vulnerability reached directly through such a host, and one
    reached through a service of such a host. *)
Definition named_host (db : Database) (vals : list pyval) (host_id : Z)
  : Prop :=
  exists h hn val,
    In h (db_hosts db) /\ h_id h = host_id
    /\ In hn (db_hostnames db) /\ hn_host_id hn = host_id
    /\ In val vals /\ sql_eq (hn_name hn) val = true.

Definition via_host (db : Database) (vals : list pyval) (v : Vuln) : Prop :=
  exists i, v_host_id v = Some i /\ named_host db vals i.

Definition via_service (db : Database) (vals : list pyval) (v : Vuln)
  : Prop :=
  exists s, In s (db_services db) /\ v_service_id v = Some (s_id s)
            /\ named_host db vals (s_host_id s).


(** Every row of the query is a vulnerability of the workspace. *)
Definition scoped (workspace : Workspace) (q : query) : Prop :=
  Forall (fun r => v_workspace_id (r_vuln r) = ws_id workspace) q.

(** A select statement as it is sent to the database: the rows of a
    query with the optional [LIMIT] and [OFFSET] clauses. *)
Record select : Type := {
  sel_from : query;
  sel_limit : option Z;
  sel_offset : option Z
}.

Definition unpaginated (q : query) : select := Build_select q None None.
Definition limit (n : Z) (s : select) : select :=
  Build_select (sel_from s) (Some n) (sel_offset s).
Definition offset (n : Z) (s : select) : select :=
  Build_select (sel_from s) (sel_limit s) (Some n).

(** ** The filter payload *)

(** The dict loaded from the [q] parameter: [filters], [group_by],
    [limit] and [offset] are the keys the view reads (spec section 6),
    [p_other] holds the remaining entries, such as [order_by]. *)
Record payload : Type := {
  p_filters : option (list node);
  p_group_by : option pyval;
  p_limit : option Z;
  p_offset : option Z;
  p_other : list (string * pyval)
}.

(** A dict is true in an [if] when it has at least one key. *)
Definition payload_truthy (p : payload) : bool :=
  match p with
  | Build_payload None None None None [] => false
  | _ => true
  end.

Definition set_filters (fs : list node) (p : payload) : payload :=
  Build_payload (Some fs) (p_group_by p) (p_limit p) (p_offset p) (p_other p).

(** [filters.pop('offset')] and [filters.pop('limit')]: the dict left. *)
Definition pop_offset (p : payload) : payload :=
  Build_payload (p_filters p) (p_group_by p) (p_limit p) None (p_other p).
Definition pop_limit (p : payload) : payload :=
  Build_payload (p_filters p) (p_group_by p) None (p_offset p) (p_other p).

(** One serialized vulnerability: the fields of the schema, in order. *)
Definition serialized : Type := list (string * pyval).

(** ** Exceptions and session effects *)

Inductive exn : Type :=
| JSONDecodeError
| ValidationError
| AttributeError (msg : string)
| KeyError (key : string)
| TypeError
| DataError
| HTTPException (code : Z) (description : string).

Inductive statement : Type :=
| WorkspaceByName (name : string)
| VulnInWorkspace (vuln_id : Z) (workspace_name : string)
| RowsOf (s : select)
| CountOf (s : select)
| GroupedOver (filters : payload) (q : query)
| DeleteWhere (ids : list Z).

(** Operations on the session: [db.session.delete], [get_or_create] of a
    [File] with the given columns, [db.session.commit]. *)
Inductive session_op : Type :=
| SessionDelete (f : File)
| GetOrCreate (f : File)
| Commit.

(** What a request causes: a logged exception, a payload handed to the
    generic translator, a statement run by the database, an operation on
    the session. *)
Inductive event : Type :=
| Logged (e : exn)
| Translated (filters : payload)
| Sql (st : statement)
| Session (op : session_op).

(** A computation: the events it caused and how it ended. *)
Definition M (A : Type) : Type := (list event * (exn + A))%type.

Definition ret {A} (a : A) : M A := ([], inr a).
Definition raise {A} (e : exn) : M A := ([], inl e).
Definition emit (ev : event) : M unit := ([ev], inr tt).
Definition lift {A} (r : exn + A) : M A := ([], r).

Definition bind {A B} (m : M A) (k : A -> M B) : M B :=
  match m with
  | (tr, inl e) => (tr, inl e)
  | (tr, inr a) => let '(tr', r) := k a in (tr ++ tr', r)
  end.

(** [try: m except: handler], for the exceptions [handler] catches; the
    handler re-raises what its [except] clause does not name. *)
Definition try_except {A} (m : M A) (handler : exn -> M A) : M A :=
  match m with
  | (tr, inl e) => let '(tr', r) := handler e in (tr ++ tr', r)
  | (tr, inr a) => (tr, inr a)
  end.

(** [flask.abort(code, description)] *)
Definition abort {A} (code : Z) (description : string) : M A :=
  raise (HTTPException code description).

#[global] Instance M_ret : MRet M := @ret.
#[global] Instance M_bind : MBind M := fun A B k m => bind m k.

(** [d[key]] on an optional entry: [KeyError] when the key is absent. *)
Definition item {A} (entry : option A) (key : string) : M A :=
  match entry with Some v => ret v | None => raise (KeyError key) end.

(** The result of a call that raises [e] when it has none. *)
Definition or_raise {A} (e : exn) (result : option A) : M A :=
  match result with Some v => ret v | None => raise e end.

Fixpoint for_each {A B} (f : A -> M B) (l : list A) : M (list B) :=
  match l with
  | [] => ret []
  | x :: xs => y ← f x; ys ← for_each f xs; ret (y :: ys)
  end.

(** ** Strings and paths *)

(** [s.replace(" ", "_")] *)
Fixpoint replace_spaces (s : string) : string :=
  match s with
  | EmptyString => EmptyString
  | String c rest =>
      String (if Ascii.eqb c " " then "_"%char else c) (replace_spaces rest)
  end.

(** [s.split(sep)] for a one-character separator. *)
Fixpoint split_on (sep : ascii) (s : string) : list string :=
  match s with
  | EmptyString => [EmptyString]
  | String c rest =>
      if Ascii.eqb c sep then EmptyString :: split_on sep rest
      else match split_on sep rest with
           | part :: parts => String c part :: parts
           | [] => [String c EmptyString]
           end
  end.

(** The components of a POSIX path below its root: empty components and
    [.] are dropped when the path is parsed. *)
Definition path_parts (p : string) : list string :=
  List.filter
    (fun x => negb (String.eqb x EmptyString) && negb (String.eqb x "."))
    (split_on "/" p).

(** [Path(p).name]: the final component, or [''] when there is none. *)
Definition Path_name (p : string) : string :=
  List.last (path_parts p) EmptyString.

(** [s.rfind('.')], as an index when the dot occurs. *)
Fixpoint rfind_dot (s : string) : option nat :=
  match s with
  | EmptyString => None
  | String c rest =>
      match rfind_dot rest with
      | Some i => Some (S i)
      | None => if Ascii.eqb c "." then Some O else None
      end
  end.

(** [Path(p).stem]: the name without its last suffix; a leading or a
    trailing dot does not start a suffix. *)
Definition Path_stem (p : string) : string :=
  let name := Path_name p in
  match rfind_dot name with
  | Some i =>
      if (0 <? i)%nat && (i <? String.length name - 1)%nat
      then substring 0 i name else name
  | None => name
  end.

(** ** Collaborators outside the module *)

(** What the view calls and this module does not define: the JSON
    parser, the filter schema, the generic filter translator [search], the
    workspace lookup of the base view, the field getters of the marshmallow
    schema, the aggregation routine and the base64 decoder. *)
Class Collaborators : Type := {
  json : Type;
  (** [json.loads]; [None] stands for [JSONDecodeError] *)
  json_loads : string -> option json;
  (** [FlaskRestlessSchema().load]; [None] stands for [ValidationError] *)
  schema_load : json -> option payload;
  (** [search(db.session, model, filters)]: the rows it selects *)
  search : Database -> model_class -> payload -> exn + list Vuln;
  (** the workspace of that name, if the request may use one *)
  get_workspace : Database -> string -> option Workspace;
  (** the value a schema field takes on a vulnerability *)
  field_value : string -> Vuln -> pyval;
  (** [get_filtered_data(filters, query)] *)
  get_filtered_data : payload -> query -> exn + (list serialized * nat);
  (** [b64decode]; an error when the data is not base64 *)
  b64decode : pyval -> exn + string;
  (** whether the depot can read the content of a file *)
  depot_readable : File -> bool
}.

(** ** The view *)

Record marshmallow_params : Type := {
  mp_many : bool;
  mp_exclude : list string
}.

(** [VulnerabilityWebSchema.Meta.fields] *)
Definition VulnerabilityWebSchema_fields : list string :=
  ["_id"; "status"; "parent_type";
   "website"; "issuetracker"; "description"; "parent";
   "tags"; "severity"; "_rev"; "easeofresolution"; "owned";
   "hostnames"; "pname"; "query"; "owner";
   "path"; "date"; "data"; "response"; "refs";
   "desc"; "impact"; "confirmed"; "name";
   "service"; "obj_id"; "type"; "policyviolations";
   "request"; "_attachments"; "params";
   "target"; "host_os"; "resolution"; "method"; "metadata";
   "status_code"; "custom_fields"; "external_id"; "tool";
   "cve"; "cwe"; "owasp"; "cvss"].

(** The rows a select statement yields; the database rejects a negative
    [LIMIT] or [OFFSET]. *)
Definition execute (s : select) : exn + query :=
  let lim := default 0%Z (sel_limit s) in
  let off := default 0%Z (sel_offset s) in
  if ((lim <? 0) || (off <? 0))%Z then inl DataError
  else
    let rows := match sel_offset s with
                | Some o => drop (Z.to_nat o) (sel_from s)
                | None => sel_from s
                end in
    inr (match sel_limit s with
         | Some l => take (Z.to_nat l) rows
         | None => rows
         end).

Section View.
Context `{Collaborators}.

(** Modelled from the spec: [self._get_workspace(workspace_name)], a method
    of the base view that is not among the sources, resolves the workspace
    and answers not-found when the lookup misses (spec sections 4.3
    and 7). *)
Definition _get_workspace (db : Database) (workspace_name : string)
  : M Workspace :=
  emit (Sql (WorkspaceByName workspace_name));;
  match get_workspace db workspace_name with
  | Some workspace => ret workspace
  | None => abort 404 "Workspace not found"
  end.

(** [host_os_filter.get('name') == 'host__os'] *)
Definition names_host_os (f : node) : bool :=
  eq_str (get (n_name f)) "host__os".

(** Lines 836-843: the pair of [hosts_os_filter] (the first match, when
    there is one) and the dict [filters] as the assignment leaves it. *)
Definition split_host_os (filters : payload) : option node * payload :=
  let hosts_os_filter :=
    List.filter names_host_os (default [] (p_filters filters)) in
  match hosts_os_filter with
  | first :: _ =>
      (Some first,
       set_filters
         (List.filter (fun f => negb (names_host_os f))
                      (default [] (p_filters filters)))
         filters)
  | [] => (None, filters)
  end.

(** Line 852: [Hostname.name == hostname_filter['val']] *)
Definition hostname_condition (hostname_filter : node) : M (row -> bool) :=
  val ← item (n_val hostname_filter) "val";
  ret (Hostname_name_eq val).

(** Lines 854-856: the union of the vulnerabilities of a host with a
    matching hostname and of those of a service of such a host. *)
Definition hostname_union (db : Database) (or_filters : list (row -> bool))
    (vulns : query) : query :=
  let vulns_host :=
    q_filter (or_ or_filters) (join_Hostname db (join_Host db vulns)) in
  q_union vulns_host
    (q_filter (or_ or_filters)
       (join_Hostname db (join_Host db (join_Service db vulns)))).

(** Line 860: [vulns.join(Host).join(Service).filter(Host.os == os_value)] *)
Definition os_join (db : Database) (os_value : pyval) (vulns : query)
  : query :=
  q_filter (Host_os_eq os_value) (join_Service db (join_Host db vulns)).

(** [_generate_filter_query]; it returns the query and, because it
    assigns to the caller's dict, the dict [filters] as it leaves it.  The
    final [options(joinedload(..))] only chooses how related collections
    are loaded and does not change the rows. *)
Definition _generate_filter_query (db : Database)
    (vulnerability_class : model_class) (filters : payload)
    (hostname_filters : list node) (workspace : Workspace)
    (params : marshmallow_params) : M (payload * query) :=
  let '(hosts_os_filter, filters) := split_host_os filters in
  emit (Translated filters);;
  found ← lift (search db vulnerability_class filters);
  let vulns := from_vulns found in
  let vulns := q_filter (in_workspace workspace) vulns in
  vulns ← (if nonempty hostname_filters then
             or_filters ← for_each hostname_condition hostname_filters;
             ret (hostname_union db or_filters vulns)
           else ret vulns);
  vulns ← match hosts_os_filter with
          | Some hosts_os_filter =>
              os_value ← item (n_val hosts_os_filter) "val";
              ret (os_join db os_value vulns)
          | None => ret vulns
          end;
  ret (filters, vulns).

(** [Schema(..).dump(query)]: the query is run and each row
    serialized field by field, without the excluded fields. *)
Definition dump_one (params : marshmallow_params) (v : Vuln) : serialized :=
  map (fun f => (f, field_value f v))
      (List.filter
         (fun f => negb (existsb (String.eqb f) (mp_exclude params)))
         VulnerabilityWebSchema_fields).

Definition dump (params : marshmallow_params) (s : select)
  : M (list serialized) :=
  emit (Sql (RowsOf s));;
  rows ← lift (execute s);
  ret (map (fun r => dump_one params (r_vuln r)) rows).

(** [query.count()] *)
Definition q_count (s : select) : M nat :=
  emit (Sql (CountOf s));;
  rows ← lift (execute s);
  ret (length rows).

Definition is_truthy (n : option Z) : bool :=
  match n with Some z => truthy (PInt z) | None => false end.

(** Lines 876-877: on a loaded dict that is not empty, the hostname
    predicates are moved out of [filters['filters']]. *)
Definition split_hostnames (filters : payload) : payload * list node :=
  if payload_truthy filters then
    let '(rest, hostname_filters) :=
      _hostname_filters (default [] (p_filters filters)) in
    (set_filters rest filters, hostname_filters)
  else (filters, []).

(** Lines 901-905: the statement for the rows, with the [LIMIT] and the
    [OFFSET] that are true. *)
Definition paginate (limit_ offset_ : option Z) (vulns : query) : select :=
  let vulns := unpaginated vulns in
  let vulns := if is_truthy limit_
               then limit (default 0%Z limit_) vulns else vulns in
  if is_truthy offset_ then offset (default 0%Z offset_) vulns else vulns.


(** [_filter(filters, workspace_name)].  The loaded dict [.. or {}] is the
    dict itself, the empty one being the record without entries. *)
Definition _filter (db : Database) (filters : string)
    (workspace_name : string) : M (list serialized * nat) :=
  '(filters, hostname_filters) ←
    try_except
      (parsed ← or_raise JSONDecodeError (json_loads filters);
       filters ← or_raise ValidationError (schema_load parsed);
       ret (split_hostnames filters))
      (fun ex => match ex with
                 | ValidationError | JSONDecodeError =>
                     emit (Logged ex);; abort 400 "Invalid filters"
                 | _ => raise ex
                 end);
  workspace ← _get_workspace db workspace_name;
  let params := {| mp_many := true; mp_exclude := ["_attachments"] |} in
  match p_group_by filters with
  | None =>
      let offset_ := p_offset filters in
      let filters := pop_offset filters in
      let limit_ := p_limit filters in
      let filters := pop_limit filters in
      '(_, vulns) ←
        try_except
          (_generate_filter_query db VulnerabilityGeneric filters
             hostname_filters workspace params)
          (fun e => match e with
                    | AttributeError msg => abort 400 msg
                    | _ => raise e
                    end);
      let total_vulns := unpaginated vulns in
      let vulns := paginate limit_ offset_ vulns in
      vulns ← dump params vulns;
      total ← q_count total_vulns;
      ret (vulns, total)
  | Some _ =>
      '(filters, vulns) ←
        _generate_filter_query db VulnerabilityGeneric filters
          hostname_filters workspace params;
      emit (Sql (GroupedOver filters vulns));;
      lift (get_filtered_data filters vulns)
  end.

(** *** Grouped counts *)

(** The response of the counting mixin: its [groups] and the other
    entries, which [count] passes on. *)
Record count_response : Type := {
  groups : list (gmap string pyval);
  total_count : Z
}.

Definition severity_map : gmap string string :=
  {[ "informational" := "info"; "medium" := "med" ]}.

(** [severity_map.get(severity, severity)] *)
Definition severity_label (severity : pyval) : pyval :=
  match severity with
  | PStr s => default severity (PStr <$> severity_map !! s)
  | _ => severity
  end.

(** A value that can be looked up in a dict: not a list, not a dict. *)
Definition hashable (v : pyval) : Prop :=
  match v with PList _ | PDict _ => False | _ => True end.

(** The local function [convert_group] of [count]; a list or a dict
    cannot be looked up in [severity_map]. *)
Definition convert_group (group : gmap string pyval)
  : M (gmap string pyval) :=
  severity ← item (group !! "severity") "severity";
  match severity with
  | PList _ | PDict _ => raise TypeError
  | _ =>
      let label := severity_label severity in
      ret (<["name" := label]> (<["severity" := label]> group))
  end.

(** The group that [convert_group] returns on a severity it can look up. *)
Definition relabelled (severity : pyval) (group : gmap string pyval)
  : gmap string pyval :=
  <["name" := severity_label severity]>
    (<["severity" := severity_label severity]> group).

(** [count], from the response [res] of the mixin's [count] and the
    [group_by] argument of the request. *)
Definition count (group_by : option string) (res : count_response)
  : M count_response :=
  if bool_decide (group_by = Some "severity") then
    converted ← for_each convert_group (groups res);
    ret {| groups := converted; total_count := total_count res |}
  else ret res.

(** *** Bulk deletion *)

(** The values that iterating a JSON value yields, as [in_] does. *)
Definition iterate (v : pyval) : M (list pyval) :=
  match v with
  | PList l => ret l
  | PStr s =>
      ret (map (fun c => PStr (String c EmptyString)) (list_ascii_of_string s))
  | PDict kvs => ret (map (fun kv => PStr (fst kv)) kvs)
  | _ => raise TypeError
  end.

(** [column.in_(values)] on the integer and the text columns. *)
Definition id_in (values : list pyval) (v : Vuln) : bool :=
  existsb (fun x => match x with PInt z => (z =? v_id v)%Z | _ => false end)
          values.

Definition severity_in (values : list pyval) (v : Vuln) : bool :=
  existsb (sql_eq (v_severity v)) values.

(** [_bulk_delete_query(ids, by=.., workspace_name=..)]: the rows the
    query selects; [by_] is the keyword argument when it is given. *)
Definition _bulk_delete_query (db : Database) (ids : pyval)
    (by_ : option string) (workspace_name : string) : M (list Vuln) :=
  values ← iterate ids;
  let query :=
    if negb (String.eqb (default "id" by_) "severity")
    then List.filter (id_in values) (db_vulns db)
    else List.filter (severity_in values) (db_vulns db) in
  workspace ← _get_workspace db workspace_name;
  ret (List.filter (fun v => (v_workspace_id v =? ws_id workspace)%Z) query).







(** *** Attachments *)

(** The rows of [File] attached to a vulnerability. *)
Definition evidence (db : Database) (object_id : Z) : list File :=
  List.filter (fun f => (f_object_id f =? object_id)%Z
                        && String.eqb (f_object_type f) "vulnerability")
              (db_files db).

(** Lines 560-570, the body of the loop over [attachments.items()]. *)
Definition store_attachment (obj_id : Z)
    (entry : string * gmap string pyval) : M unit :=
  let '(filename, attachment) := entry in
  data ← item (attachment !! "data") "data";
  faraday_file ← lift (b64decode data);
  let filename := replace_spaces filename in
  emit (Session (GetOrCreate
          {| f_object_id := obj_id;
             f_object_type := "vulnerability";
             f_name := Path_stem filename;
             f_filename := Path_name filename;
             f_content := faraday_file |})).


(** [_process_attachments(obj, attachments)]: [attachments] are the
    items of the dict, each value a dict read at ["data"]. *)
Definition _process_attachments (db : Database) (obj_id : Z)
    (attachments : list (string * gmap string pyval)) : M unit :=
  let old_attachments := evidence db obj_id in
  for_each (fun old_attachment => emit (Session (SessionDelete old_attachment)))
           old_attachments;;
  for_each (store_attachment obj_id) attachments;;
  ret tt.

(** The file part of a multipart upload. *)
Record upload : Type := { u_filename : string; u_read : string }.

Inductive response : Type :=
| Response (message : string) (success : bool) (code : Z).

(** The rows of [vuln_workspace_check]: the vulnerability of that id
    joined with its workspace, when the workspace has that name. *)
Definition vuln_workspace_check (db : Database) (vuln_id : Z)
    (workspace_name : string) : list Vuln :=
  List.filter
    (fun v => (v_id v =? vuln_id)%Z
              && existsb (fun w => (ws_id w =? v_workspace_id v)%Z
                                   && String.eqb (ws_name w) workspace_name)
                         (db_workspaces db))
    (db_vulns db).

(** The filenames under which the schema dumps the attachments of a
    vulnerability; a file that the depot cannot read is left out. *)
Definition dumped_attachments (db : Database) (vuln_id : Z) : list string :=
  map f_filename (List.filter depot_readable (evidence db vuln_id)).



(** A string without the character [c]. *)
Definition free_of (c : ascii) (s : string) : Prop :=
  ~ In c (list_ascii_of_string s).

(** [post_attachment(workspace_name, vuln_id)]; [file] is the entry of
    [request.files] under ['file'], when there is one. *)
Definition post_attachment (db : Database) (file : option upload)
    (workspace_name : string) (vuln_id : Z) : M response :=
  emit (Sql (VulnInWorkspace vuln_id workspace_name));;
  let vuln_workspace_check :=
    vuln_workspace_check db vuln_id workspace_name in
  if nonempty vuln_workspace_check then
    match file with
    | None => abort 400 EmptyString
    | Some file =>
        let filename := u_filename file in
        let _attachments := dumped_attachments db vuln_id in
        if existsb (String.eqb filename) _attachments
        then ret (Response "Evidence already exists in vuln" false 400)
        else
          let faraday_file := u_read file in
          emit (Session (GetOrCreate
                  {| f_object_id := vuln_id;
                     f_object_type := "vulnerability";
                     f_name := filename;
                     f_filename := filename;
                     f_content := faraday_file |}));;
          emit (Session Commit);;
          ret (Response "Evidence upload was successful" true 200)
    end
  else abort 404 "Vulnerability not found".

End View.

(** ** A small installation for worked examples *)

Module Demo.

Definition acme : Workspace := {| ws_id := 1; ws_name := "acme" |}.
Definition other : Workspace := {| ws_id := 2; ws_name := "other" |}.

Definition web01 : Host := {| h_id := 10; h_os := "linux" |}.
Definition http : Service := {| s_id := 100; s_host_id := 10 |}.
Definition https : Service := {| s_id := 101; s_host_id := 10 |}.
Definition a_com : Hostname := {| hn_name := "a.com"; hn_host_id := 10 |}.

(** A finding on the host, one on its service, one in another workspace. *)
Definition on_host : Vuln :=
  {| v_id := 1; v_workspace_id := 1; v_host_id := Some 10%Z;
     v_service_id := None; v_severity := "high" |}.
Definition on_service : Vuln :=
  {| v_id := 2; v_workspace_id := 1; v_host_id := None;
     v_service_id := Some 100%Z; v_severity := "medium" |}.
Definition elsewhere : Vuln :=
  {| v_id := 3; v_workspace_id := 2; v_host_id := Some 10%Z;
     v_service_id := None; v_severity := "high" |}.

Definition screenshot : File :=
  {| f_object_id := 1; f_object_type := "vulnerability";
     f_name := "old"; f_filename := "old.png"; f_content := EmptyString |}.

Definition db : Database :=
  {| db_workspaces := [acme; other];
     db_vulns := [on_host; on_service; elsewhere];
     db_hosts := [web01];
     db_services := [http; https];
     db_hostnames := [a_com];
     db_files := [screenshot] |}.

Definition empty_payload : payload := Build_payload None None None None [].

Definition hostnames_is (name : string) : node :=
  leaf (PStr "hostnames") (PStr "==") (PStr name) None.
Definition severity_is (sev : string) : node :=
  leaf (PStr "severity") (PStr "==") (PStr sev) None.
Definition host_os_is (os : string) : node :=
  leaf (PStr "host__os") (PStr "==") (PStr os) None.

(** Request texts, named by what they decode to. *)
Definition requests : list (string * payload) :=
  [("{}", empty_payload);
   ("{filters: [severity == high], limit: 1, offset: 1}",
    Build_payload (Some [severity_is "high"]) None (Some 1%Z) (Some 1%Z) []);
   ("{filters: [severity == high], limit: 0, offset: 0}",
    Build_payload (Some [severity_is "high"]) None (Some 0%Z) (Some 0%Z) []);
   ("{filters: [severity == high]}",
    Build_payload (Some [severity_is "high"]) None None None [])].

Definition lookup_text (text : string) (table : list (string * payload))
  : option payload :=
  snd <$> List.find (fun kv => String.eqb (fst kv) text) table.

(** Collaborators that decode the texts of [requests], reject the text
    ["schema"] at validation and any other text at parsing, and whose
    translator selects the whole table. *)
Definition collaborators : Collaborators :=
  {| json := string;
     json_loads := fun text =>
       if String.eqb text "schema" then Some text
       else match lookup_text text requests with
            | Some _ => Some text
            | None => None
            end;
     schema_load := fun text => lookup_text text requests;
     search := fun db _ _ => inr (db_vulns db);
     get_workspace := fun db name =>
       List.find (fun w => String.eqb (ws_name w) name) (db_workspaces db);
     field_value := fun f v =>
       if String.eqb f "_id" then PInt (v_id v)
       else if String.eqb f "severity" then PStr (v_severity v)
       else PNone;
     get_filtered_data := fun _ q => inr ([], length q);
     b64decode := fun v =>
       match v with PStr s => inr s | _ => inl TypeError end;
     depot_readable := fun _ => true |}.

Definition params : marshmallow_params :=
  {| mp_many := true; mp_exclude := ["_attachments"] |}.

End Demo.

(** ** Further readings of the query *)


(** Every row of the query selects a vulnerability with the property. *)
Definition selects (P : Vuln -> Prop) (q : query) : Prop :=
  Forall (fun r => P (r_vuln r)) q.

(** ** A second installation, with a translator that can fail *)

Module Lab.

Definition grouped_payload : payload :=
  Build_payload
    (Some [Demo.severity_is "high"; Demo.host_os_is "linux";
           and_group [Demo.hostnames_is "a.com"]])
    (Some (PStr "severity")) (Some 1%Z) None [].

Definition unknown_field_payload (grouped : bool) : payload :=
  Build_payload (Some [Demo.severity_is "high"])
                (if grouped then Some (PStr "severity") else None)
                None None [("order_by", PStr "nope")].

Definition requests : list (string * payload) :=
  [("{filters: [severity, host__os, and: [hostnames]], group_by, limit: 1}",
    grouped_payload);
   ("{filters: [severity == high], order_by: nope}",
    unknown_field_payload false);
   ("{filters: [severity == high], order_by: nope, group_by: severity}",
    unknown_field_payload true)].

(** As [Demo.collaborators], over the texts of [requests]; the
    translator rejects a payload with an [order_by] entry, and the
    aggregation counts the rows it is given. *)
Definition collaborators : Collaborators :=
  {| json := string;
     json_loads := fun text =>
       match Demo.lookup_text text requests with
       | Some _ => Some text
       | None => None
       end;
     schema_load := fun text => Demo.lookup_text text requests;
     search := fun db _ p =>
       if nonempty (p_other p) then inl (AttributeError "nope")
       else inr (db_vulns db);
     get_workspace := fun db name =>
       List.find (fun w => String.eqb (ws_name w) name) (db_workspaces db);
     field_value := fun f v =>
       if String.eqb f "_id" then PInt (v_id v) else PNone;
     get_filtered_data := fun _ q => inr ([], length q);
     b64decode := fun v =>
       match v with PStr s => inr s | _ => inl TypeError end;
     depot_readable := fun _ => true |}.

End Lab.

(** ** Other parts of the view *)

(** *** Envelopes and the filter endpoint *)

(** [d.get(key)] on a serialized row: the value under the key, if any. *)
Fixpoint assoc_get (key : string) (d : serialized) : option pyval :=
  match d with
  | [] => None
  | (k, v) :: rest => if String.eqb k key then Some v else assoc_get key rest
  end.

(** One element of the list under ['vulnerabilities'], and the dict that
    [_envelope_list] returns. *)
Record envelope_entry : Type := {
  e_id : pyval;
  e_key : pyval;
  e_value : serialized
}.

Record envelope : Type := {
  env_vulnerabilities : list envelope_entry;
  env_count : nat
}.

(** The entry appended for the object at position [index]. *)
Definition envelope_entry_of (index : nat) (vuln : serialized)
  : envelope_entry :=
  {| e_id := default (PInt (Z.of_nat index)) (assoc_get "_id" vuln);
     e_key := default (PInt (Z.of_nat index)) (assoc_get "_id" vuln);
     e_value := vuln |}.

(** [_envelope_list(objects, pagination_metadata)]: the loop over
    [enumerate(objects)] carries the index and the list built so far;
    [pagination_metadata] is the [total] it holds, when it is given. *)
Definition _envelope_list (objects : list serialized)
    (pagination_metadata : option nat) : envelope :=
  let vulns :=
    snd (fold_left
           (fun '(index, vulns) vuln =>
              (S index, vulns ++ [envelope_entry_of index vuln]))
           objects (O, [])) in
  {| env_vulnerabilities := vulns;
     env_count := match pagination_metadata with
                  | Some total => total
                  | None => length vulns
                  end |}.

(** [c.lower()] and [s.lower()] on the letters of ASCII. *)
Definition lower_char (c : ascii) : ascii :=
  let n := nat_of_ascii c in
  if (65 <=? n)%nat && (n <=? 90)%nat then ascii_of_nat (n + 32) else c.

Fixpoint lower (s : string) : string :=
  match s with
  | EmptyString => EmptyString
  | String c rest => String (lower_char c) (lower rest)
  end.





Section Endpoints.
Context `{Collaborators}.



(** [_bulk_update_query(ids, workspace_name=..)] *)
Definition _bulk_update_query (db : Database) (ids : pyval)
    (workspace_name : string) : M (list Vuln) :=
  values ← iterate ids;
  let query := List.filter (id_in values) (db_vulns db) in
  workspace ← _get_workspace db workspace_name;
  ret (List.filter (fun v => (v_workspace_id v =? ws_id workspace)%Z) query).

End Endpoints.

(** *** Attachments served and removed, objects created and updated *)

(** A vulnerability object as the create and update paths read it. *)
Record vuln_object : Type := {
  o_id : Z;
  o_tool : pyval;
  o_creator_command_tool : pyval
}.

(** The deserialized body of a create or update: the entry under
    [_attachments] when the key is there (its value may be [None]), and
    the other entries. *)
Record vuln_data : Type := {
  d_attachments : option (option (list (string * gmap string pyval)));
  d_fields : gmap string pyval
}.

(** What the attachment and persistence paths call outside the module:
    the depot behind a [File], the lookup of a parent in a workspace, and
    the create and update of the base view. *)
Class Backend : Type := {
  (** [depot.get(file_id).content_type] *)
  depot_content_type : File -> exn + string;
  (** [depot.get(file_id).read()] *)
  depot_read : File -> exn + string;
  (** [depot.delete(file_id)] *)
  depot_delete : File -> exn + unit;
  (** the id of the host or service of that id in the workspace of that
      name, if there is one: the query of [post_load_parent] *)
  find_parent : string -> string -> pyval -> option Z;
  (** [super()._perform_create(data)] *)
  super_perform_create : gmap string pyval -> exn + vuln_object;
  (** [parse_cve_cvss_references_and_policyviolations] *)
  parse_references : vuln_object -> pyval -> pyval -> pyval -> vuln_object;
  (** [super()._perform_update(object_id, obj, data, workspace_name)] *)
  super_perform_update :
    Z -> vuln_object -> gmap string pyval -> string -> M vuln_object
}.

(** A file sent back by [send_file]. *)
Record sent_file : Type := {
  sf_data : string;
  sf_attachment_filename : string;
  sf_as_attachment : bool;
  sf_mimetype : string
}.

(** [s.replace(" ", "%20")] *)
Fixpoint percent_spaces (s : string) : string :=
  match s with
  | EmptyString => EmptyString
  | String c rest =>
      if Ascii.eqb c " " then "%20" ++ percent_spaces rest
      else String c (percent_spaces rest)
  end.

(** [CustomMetadataSchema.get_creator(obj)] *)
Definition get_creator (obj : vuln_object) : pyval :=
  if truthy (o_tool obj) then o_tool obj
  else if truthy (o_creator_command_tool obj)
       then o_creator_command_tool obj else PStr "Web UI".

(** [d.pop(key, default)]: the value and the dict left. *)
Definition pop (key : string) (default_ : pyval) (d : gmap string pyval)
  : pyval * gmap string pyval :=
  (default default_ (d !! key), delete key d).

(** The fields that [_perform_create] hands to the base view. *)
Definition created_from (data : vuln_data) : gmap string pyval :=
  delete "cve" (delete "policy_violations" (delete "references"
                                              (d_fields data))).

Section Persistence.
Context `{Collaborators} `{Backend}.

(** The first [File] of the vulnerability stored under the filename. *)
Definition file_named (db : Database) (vuln_id : Z) (filename : string)
  : option File :=
  List.find (fun f => String.eqb (f_object_type f) "vulnerability"
                      && (f_object_id f =? vuln_id)%Z
                      && String.eqb (f_filename f) filename)
            (db_files db).

(** [get_attachment(workspace_name, vuln_id, attachment_filename)] *)
Definition get_attachment (db : Database) (workspace_name : string)
    (vuln_id : Z) (attachment_filename : string) : M sent_file :=
  emit (Sql (VulnInWorkspace vuln_id workspace_name));;
  let vuln_workspace_check :=
    vuln_workspace_check db vuln_id workspace_name in
  if nonempty vuln_workspace_check then
    match file_named db vuln_id (percent_spaces attachment_filename) with
    | Some file_obj =>
        content_type ← lift (depot_content_type file_obj);
        let as_attachment :=
          if String.prefix "image/" content_type then false else true in
        data ← lift (depot_read file_obj);
        ret {| sf_data := data;
               sf_attachment_filename := f_filename file_obj;
               sf_as_attachment := as_attachment;
               sf_mimetype := content_type |}
    | None => abort 404 "File not found"
    end
  else abort 404 "Vulnerability not found".

(** [delete_attachment(workspace_name, vuln_id, attachment_filename)] *)
Definition delete_attachment (db : Database) (workspace_name : string)
    (vuln_id : Z) (attachment_filename : string) : M response :=
  emit (Sql (VulnInWorkspace vuln_id workspace_name));;
  let vuln_workspace_check :=
    vuln_workspace_check db vuln_id workspace_name in
  if nonempty vuln_workspace_check then
    match file_named db vuln_id attachment_filename with
    | Some file_obj =>
        emit (Session (SessionDelete file_obj));;
        emit (Session Commit);;
        lift (depot_delete file_obj);;
        ret (Response "Attachment was successfully deleted" true 200)
    | None => abort 404 "File not found"
    end
  else abort 404 "Vulnerability not found".

(** [_process_attachments] on the value found under [_attachments]: on
    [None] the old attachments are deleted before [None.items()] fails. *)
Definition process_attachments_value (db : Database) (obj_id : Z)
    (attachments : option (list (string * gmap string pyval))) : M unit :=
  match attachments with
  | Some attachments => _process_attachments db obj_id attachments
  | None =>
      for_each
        (fun old_attachment =>
           emit (Session (SessionDelete old_attachment)))
        (evidence db obj_id);;
      raise (AttributeError "'NoneType' object has no attribute 'items'")
  end.

(** [_perform_update(object_id, obj, data, workspace_name, partial)];
    the flush between the update and the attachments changes nothing
    here. *)
Definition _perform_update (db : Database) (object_id : Z)
    (obj : vuln_object) (data : vuln_data) (workspace_name : string)
    (partial : bool) : M vuln_object :=
  let attachments :=
    match d_attachments data with
    | Some given => Some given
    | None => if partial then None else Some (Some [])
    end in
  obj ← super_perform_update object_id obj (d_fields data) workspace_name;
  match attachments with
  | Some attachments => process_attachments_value db (o_id obj) attachments
  | None => ret tt
  end;;
  emit (Session Commit);;
  ret obj.

(** Lines 540-544: the tool of an object created without one. *)
Definition with_tool (obj : vuln_object) : vuln_object :=
  if negb (truthy (o_tool obj)) then
    if truthy (o_creator_command_tool obj)
    then {| o_id := o_id obj; o_tool := o_creator_command_tool obj;
            o_creator_command_tool := o_creator_command_tool obj |}
    else {| o_id := o_id obj; o_tool := PStr "Web UI";
            o_creator_command_tool := o_creator_command_tool obj |}
  else obj.

(** [_perform_create(data)], from the parsed [data]. *)
Definition _perform_create (db : Database) (data : vuln_data)
  : M vuln_object :=
  let attachments := default (Some []) (d_attachments data) in
  let '(references, fields) := pop "references" (PList []) (d_fields data) in
  let '(policyviolations, fields) :=
    pop "policy_violations" (PList []) fields in
  let '(cve_list, fields) := pop "cve" (PList []) fields in
  obj ← try_except
          (lift (super_perform_create fields))
          (fun e => match e with
                    | TypeError => abort 400 EmptyString
                    | _ => raise e
                    end);
  let obj := parse_references obj references policyviolations cve_list in
  process_attachments_value db (o_id obj) attachments;;
  let obj := with_tool obj in
  emit (Session Commit);;
  ret obj.

(** [VulnerabilitySchema.post_load_parent(data)], in the workspace named
    by the context of the schema. *)
Definition post_load_parent (workspace_name : string)
    (data : gmap string pyval) : M (gmap string pyval) :=
  let '(parent_type, data) := pop "parent_type" PNone data in
  let '(parent_id, data) := pop "parent" PNone data in
  if negb (truthy parent_type && truthy parent_id) then ret data
  else
    let parent :=
      if eq_str parent_type "Service" then Some ("Service", "service_id")
      else if eq_str parent_type "Host" then Some ("Host", "host_id")
      else None in
    match parent with
    | None => raise ValidationError
    | Some (parent_class, parent_field) =>
        web ← (if eq_str parent_type "Host"
               then type ← item (data !! "type") "type";
                    ret (eq_str type "vulnerability_web")
               else ret false);
        if web : bool then raise ValidationError
        else
          match find_parent parent_class workspace_name parent_id with
          | None => raise ValidationError
          | Some id => ret (<[parent_field := PInt id]> data)
          end
    end.

End Persistence.

(** *** The legacy filter set *)

(** The multi-dict of the request arguments: the values given under
    each name, in order. *)
Definition arguments : Type := gmap string (list string).

(** [args[name]]: the first value, when the name has one. *)
Definition first_value (args : arguments) (name : string) : option string :=
  args !! name ≫= head.

(** [param_mapping.items()] *)
Definition param_mapping : list (string * string) :=
  [("query", "query_string");
   ("pname", "parameter_name");
   ("params", "parameters");
   ("easeofresolution", "ease_of_resolution")].

(** Lines 471-477 of [VulnerabilityFilterSet.filter]: the arguments with
    the old names copied under the new ones. *)
Definition translated_args (request_args : arguments) : arguments :=
  fold_left
    (fun new_args '(old_param, real_param) =>
       match first_value request_args old_param with
       | Some value => <[real_param := [value]]> new_args
       | None => new_args
       end)
    param_mapping request_args.

(** [alias.name.in_(value_list)] *)
Definition Hostname_name_in (value_list : list string) (r : row) : bool :=
  match r_hostname r with
  | Some hn => existsb (String.eqb (hn_name hn)) value_list
  | None => false
  end.

(** [HostnamesFilter.filter(query, model, attr, value)]; the first join
    of each path has its condition written out. *)
Definition HostnamesFilter_filter (db : Database) (query_ : query)
    (value : string) : query :=
  let value_list := split_on "," value in
  let service_hostnames_query :=
    q_filter (Hostname_name_in value_list)
      (join_Hostname db
         (join_Host db
            (inner_join (db_services db)
               (fun r s => id_is (v_service_id (r_vuln r)) (s_id s))
               (fun r s => Build_row (r_vuln r) (r_host r) (Some s)
                                     (r_hostname r))
               query_))) in
  let host_hostnames_query :=
    q_filter (Hostname_name_in value_list)
      (join_Hostname db
         (inner_join (db_hosts db)
            (fun r h => id_is (v_host_id (r_vuln r)) (h_id h))
            (fun r h => Build_row (r_vuln r) (Some h) (r_service r)
                                  (r_hostname r))
            query_)) in
  q_union service_hostnames_query host_hostnames_query.

(** ** The application: authentication of a request and the login form

    From [faraday/server/app.py]. *)

(** A row of [User], reduced to what the two paths read. *)
Record account : Type := {
  a_username : string;
  a_password : string;
  a_active : bool
}.

(** How [jwt.decode] ends: with the claims of the token, with one of the
    two exceptions that [verify_token] catches, or with another one. *)
Inductive jwt_outcome : Type :=
| Decoded (data : gmap string pyval)
| ExpiredSignatureError
| InvalidSignatureError
| OtherJwtError (e : exn).

(** The login form: the data of its two fields, the errors of the email
    field and the user it found. *)
Record login_form : Type := {
  email_data : string;
  password_data : string;
  email_errors : list string;
  form_user : option account
}.

(** What the application calls outside this file. *)
Class Accounts : Type := {
  (** [jwt.decode(token, SECRET_KEY, algorithms=["HS512"])] *)
  jwt_decode : string -> jwt_outcome;
  (** [User.query.filter_by(fs_uniquifier=user_id).first()] *)
  user_by_uniquifier : pyval -> option account;
  (** [User.query.filter_by(username=username).first()] and
      [_datastore.find_user(username=..)] *)
  user_by_username : string -> option account;
  (** [verify_hash(validation_check, user.password)] *)
  verify_hash : pyval -> string -> bool;
  (** [verify_and_update_password(password, user)] *)
  verify_and_update_password : string -> account -> bool;
  (** the validation of the form fields, [super(LoginForm, self).validate()] *)
  base_validate : login_form -> bool;
  (** [remove_null_caracters] *)
  remove_null_caracters : string -> string;
  (** [get_message(key)[0]] *)
  get_message : string -> string
}.

(** The characters at which [str.split()] splits, in Latin-1. *)
Definition is_space (c : ascii) : bool :=
  let n := nat_of_ascii c in
  ((9 <=? n) && (n <=? 13) || (28 <=? n) && (n <=? 32)
   || (n =? 133) || (n =? 160))%nat.

Fixpoint skip_spaces (s : string) : string :=
  match s with
  | EmptyString => EmptyString
  | String c rest => if is_space c then skip_spaces rest else s
  end.

(** The longest prefix without a space, and what follows it. *)
Fixpoint take_word (s : string) : string * string :=
  match s with
  | EmptyString => (EmptyString, EmptyString)
  | String c rest =>
      if is_space c then (EmptyString, s)
      else let '(word, after) := take_word rest in (String c word, after)
  end.

(** [s.split(None, 1)]: nothing, the only word, or the first word and
    the rest of the string from its next word on. *)
Definition split_once (s : string) : list string :=
  match skip_spaces s with
  | EmptyString => []
  | trimmed =>
      let '(word, after) := take_word trimmed in
      match skip_spaces after with
      | EmptyString => [word]
      | rest => [word; rest]
      end
  end.

Section Authentication.
Context `{Accounts}.

(** [verify_token(token)] *)
Definition verify_token (token : string) : M (option account) :=
  match jwt_decode token with
  | Decoded data =>
      user_id ← item (data !! "user_id") "user_id";
      match user_by_uniquifier user_id with
      | None => ret None
      | Some user =>
          check ← item (data !! "validation_check") "validation_check";
          if verify_hash check (a_password user)
          then ret (Some user) else ret None
      end
  | ExpiredSignatureError => ret None
  | InvalidSignatureError => ret None
  | OtherJwtError e => raise e
  end.

(** [load_user_from_request(request)]: [authorization_header] is the
    [Authorization] header when the request has one, [authorization] the
    parsed credentials [flask.request.authorization]. *)
Definition load_user_from_request (authorization_header : option string)
    (authorization : option (gmap string string)) : M (option account) :=
  match authorization_header with
  | Some header =>
      match split_once header with
      | [auth_type; token] =>
          let auth_type := lower auth_type in
          if String.eqb auth_type "token" then
            user ← verify_token token;
            match user with
            | None => abort 401 EmptyString
            | Some user => ret (Some user)
            end
          else if String.eqb auth_type "agent" then ret None
          else if String.eqb auth_type "basic" then
            credentials ←
              or_raise
                (AttributeError "'NoneType' object has no attribute 'get'")
                authorization;
            let username := default EmptyString (credentials !! "username") in
            let password := default EmptyString (credentials !! "password") in
            match user_by_username username with
            | Some user =>
                if verify_and_update_password password user
                then ret (Some user) else ret None
            | None => ret None
            end
          else abort 401 EmptyString
      | _ => abort 401 EmptyString
      end
  | None => ret None
  end.



End Authentication.

(** ** A third installation: a depot, parents and accounts *)

Module Office.

(** A depot that reads every file and knows [old.png] as an image; the
    host 10 and the service 100 are in the workspace [acme]; the base view
    builds an object from data with a [name] and updates in place. *)
Definition backend : Backend :=
  {| depot_content_type := fun f =>
       if String.eqb (f_filename f) "old.png" then inr "image/png"
       else inr "application/octet-stream";
     depot_read := fun f => inr (f_content f);
     depot_delete := fun _ => inr tt;
     find_parent := fun parent_class workspace_name parent_id =>
       if String.eqb workspace_name "acme" then
         match parent_id with
         | PInt id =>
             if String.eqb parent_class "Host" && (id =? 10)%Z
                || String.eqb parent_class "Service" && (id =? 100)%Z
             then Some id else None
         | _ => None
         end
       else None;
     super_perform_create := fun fields =>
       match fields !! "name" with
       | Some _ =>
           inr {| o_id := 7; o_tool := default PNone (fields !! "tool");
                  o_creator_command_tool := PNone |}
       | None => inl TypeError
       end;
     parse_references := fun obj _ _ _ => obj;
     super_perform_update := fun _ obj _ _ => ret obj |}.

Definition alice : account :=
  {| a_username := "alice"; a_password := "hash-a"; a_active := true |}.
Definition bob : account :=
  {| a_username := "bob"; a_password := "hash-b"; a_active := false |}.

(** Two users, of which [bob] is disabled; the token [good] names
    [alice]; every password is [secret]. *)
Definition accounts : Accounts :=
  {| jwt_decode := fun token =>
       if String.eqb token "good"
       then Decoded {[ "user_id" := PStr "u-alice";
                       "validation_check" := PStr "hash-a" ]}
       else if String.eqb token "old" then ExpiredSignatureError
            else InvalidSignatureError;
     user_by_uniquifier := fun user_id =>
       if eq_str user_id "u-alice" then Some alice else None;
     user_by_username := fun username =>
       if String.eqb username "alice" then Some alice
       else if String.eqb username "bob" then Some bob else None;
     verify_hash := fun check password => eq_str check password;
     verify_and_update_password := fun password _ =>
       String.eqb password "secret";
     base_validate := fun form =>
       negb (String.eqb (email_data form) EmptyString);
     remove_null_caracters := fun text => text;
     get_message := fun key => key |}.


End Office.

(** * Properties *)

(** ** The filter-tree rewrite *)

Section FilterTree.

(** Induction over nodes, with the hypothesis on every child of the
    group that the code descends into. *)
Lemma node_rect_children (P : node -> Prop) :
  (forall nm op v f rest, P (Node nm op v f None None rest)) ->
  (forall nm op v f l a rest,
      Forall P l -> P (Node nm op v f (Some l) a rest)) ->
  (forall nm op v f l rest,
      Forall P l -> P (Node nm op v f None (Some l) rest)) ->
  forall n, P n.
Proof.
  intros Hleaf Hor Hand.
  fix IH 1. intros [nm op v f o a rest].
  assert (Hall : forall l : list node, Forall P l).
  { fix IHl 1. intros [|x l]; constructor; [apply IH | apply IHl]. }
  destruct o as [l|]; [apply Hor, Hall|].
  destruct a as [l|]; [apply Hand, Hall | apply Hleaf].
Qed.

Lemma filter_map_flat_map {A B} (p : B -> bool) (g : A -> B)
    (h : node -> list A) (l : list node) :
  List.filter p (map g (flat_map h l))
  = flat_map (fun x => List.filter p (map g (h x))) l.
Proof.
  induction l as [|x l IHl]; simpl; [reflexivity|].
  now rewrite map_app, List.filter_app, IHl.
Qed.

Lemma extracted_flat_map (l : list node) :
  extracted l = flat_map extracted_of l.
Proof. apply filter_map_flat_map. Qed.

Lemma is_hostnames_field_filter (n : node) :
  is_hostnames (field_filter n) = is_hostnames n.
Proof. reflexivity. Qed.

Lemma nonempty_cases {A} (l : list A) (yes no : list node) :
  (if nonempty l then yes else no) = match l with [] => no | _ => yes end.
Proof. now destruct l. Qed.

(** The loop over a list, given what each iteration does. *)
Lemma fold_visit (l : list node) :
  Forall (fun n => forall r h,
              visit n (r, h) = (r ++ strip_node n, h ++ extracted_of n)) l ->
  forall r h,
    fold_left (fun a x => visit x a) l (r, h)
    = (r ++ flat_map strip_node l, h ++ flat_map extracted_of l).
Proof.
  induction 1 as [|x l Hx _ IHl]; intros r h; simpl.
  - now rewrite !app_nil_r.
  - rewrite Hx, IHl, <- !app_assoc. reflexivity.
Qed.

(** One iteration appends the stripped node and its extracted leaves. *)
Lemma visit_appends (n : node) :
  forall r h, visit n (r, h) = (r ++ strip_node n, h ++ extracted_of n).
Proof.
  induction n as [nm op v f rest | nm op v f l a rest IHl
                 | nm op v f l rest IHl] using node_rect_children;
    intros r h.
  - unfold extracted_of. simpl.
    rewrite is_hostnames_field_filter.
    destruct (is_hostnames _); simpl; now rewrite ?app_nil_r.
  - simpl. rewrite (fold_visit l IHl). simpl.
    rewrite nonempty_cases.
    unfold extracted_of. simpl.
    rewrite (filter_map_flat_map is_hostnames field_filter leaves_of l).
    destruct (flat_map strip_node l); simpl; now rewrite ?app_nil_r.
  - simpl. rewrite (fold_visit l IHl). simpl.
    rewrite nonempty_cases.
    unfold extracted_of. simpl.
    rewrite (filter_map_flat_map is_hostnames field_filter leaves_of l).
    destruct (flat_map strip_node l); simpl; now rewrite ?app_nil_r.
Qed.

(** The loop computes the stripped tree and the extracted leaves. *)
Lemma hostname_filters_strip (tree : list node) :
  _hostname_filters tree = (strip_hostnames tree, extracted tree).
Proof.
  unfold _hostname_filters. rewrite fold_visit.
  - now rewrite extracted_flat_map.
  - apply Forall_forall. intros n _. apply visit_appends.
Qed.

Lemma leaves_app (l1 l2 : list node) :
  leaves (l1 ++ l2) = leaves l1 ++ leaves l2.
Proof. apply flat_map_app. Qed.

Lemma leaves_strip_flat_map (l : list node) :
  Forall (fun n => leaves (strip_node n)
                   = List.filter (fun x => negb (is_hostnames x))
                                 (map field_filter (leaves_of n))) l ->
  leaves (flat_map strip_node l) = kept_leaves l.
Proof.
  intros Hl. unfold kept_leaves.
  change (leaves l) with (flat_map leaves_of l).
  rewrite (filter_map_flat_map _ field_filter leaves_of l).
  induction Hl as [|x l Hx _ IHl]; simpl; [reflexivity|].
  now rewrite leaves_app, Hx, IHl.
Qed.

Lemma leaves_strip_node (n : node) :
  leaves (strip_node n)
  = List.filter (fun x => negb (is_hostnames x))
                (map field_filter (leaves_of n)).
Proof.
  induction n as [nm op v f rest | nm op v f l a rest IHl
                 | nm op v f l rest IHl] using node_rect_children.
  - simpl. rewrite is_hostnames_field_filter.
    destruct (is_hostnames _); reflexivity.
  - transitivity (leaves (flat_map strip_node l)).
    + simpl. destruct (flat_map strip_node l); [reflexivity|].
      unfold leaves. simpl. now rewrite app_nil_r.
    + now rewrite (leaves_strip_flat_map l IHl).
  - transitivity (leaves (flat_map strip_node l)).
    + simpl. destruct (flat_map strip_node l); [reflexivity|].
      unfold leaves. simpl. now rewrite app_nil_r.
    + now rewrite (leaves_strip_flat_map l IHl).
Qed.

(** The leaves left in the stripped tree are the other leaves, in order. *)
Lemma leaves_strip (tree : list node) :
  leaves (strip_hostnames tree) = kept_leaves tree.
Proof.
  apply leaves_strip_flat_map, Forall_forall. intros n _.
  apply leaves_strip_node.
Qed.

Lemma flat_map_singletons (l : list node) :
  Forall (fun n => strip_node n = [n]) l -> flat_map strip_node l = l.
Proof.
  induction 1 as [|x l Hx _ IHl]; simpl; [reflexivity|].
  now rewrite Hx, IHl.
Qed.

Lemma forallb_flat_map {A} (p : A -> bool) (h : node -> list A)
    (l : list node) :
  forallb p (flat_map h l) = forallb (fun n => forallb p (h n)) l.
Proof.
  induction l as [|x l IHl]; simpl; [reflexivity|].
  now rewrite forallb_app, IHl.
Qed.

Lemma strip_children (l : list node) :
  Forall
    (fun n => plain_node n = true ->
              forallb (fun x => negb (is_hostnames x)) (leaves_of n) = true ->
              strip_node n = [n]) l ->
  forallb plain_node l = true ->
  forallb (fun x => negb (is_hostnames x)) (flat_map leaves_of l) = true ->
  flat_map strip_node l = l.
Proof.
  intros IHl Hplain Hfree. apply flat_map_singletons.
  rewrite forallb_flat_map in Hfree.
  rewrite forallb_forall in Hplain, Hfree.
  rewrite List.Forall_forall in IHl |- *.
  intros n Hn. apply IHl; auto.
Qed.

(** A plain node without a [hostnames] leaf is rebuilt as it is. *)
Lemma strip_plain_node (n : node) :
  plain_node n = true ->
  forallb (fun x => negb (is_hostnames x)) (leaves_of n) = true ->
  strip_node n = [n].
Proof.
  induction n as [nm op v f rest | nm op v f l a rest IHl
                 | nm op v f l rest IHl] using node_rect_children;
    intros Hplain Hfree.
  - simpl in Hfree. rewrite andb_true_r in Hfree.
    simpl. apply negb_true_iff in Hfree. rewrite Hfree.
    destruct nm, op, v, f, rest; simpl in Hplain; try discriminate;
      unfold field_filter, leaf; simpl; [now rewrite Hplain | reflexivity].
  - destruct nm, op, v, f, a, rest; simpl in Hplain; try discriminate.
    apply andb_true_iff in Hplain as [Hne Hplain].
    simpl in Hfree. simpl.
    rewrite (strip_children l IHl Hplain Hfree).
    destruct l; [discriminate | reflexivity].
  - destruct nm, op, v, f, rest; simpl in Hplain; try discriminate.
    apply andb_true_iff in Hplain as [Hne Hplain].
    simpl in Hfree. simpl.
    rewrite (strip_children l IHl Hplain Hfree).
    destruct l; [discriminate | reflexivity].
Qed.

Lemma strip_plain (tree : list node) :
  plain tree = true -> hostname_free tree = true ->
  strip_hostnames tree = tree.
Proof.
  intros Hplain Hfree. apply strip_children; auto.
  apply Forall_forall. intros n _. apply strip_plain_node.
Qed.

Lemma extracted_free (tree : list node) :
  hostname_free tree = true -> extracted tree = [].
Proof.
  unfold hostname_free, extracted. induction (leaves tree) as [|x l IHl];
    simpl; [reflexivity|].
  intros [Hx Hl]%andb_true_iff. rewrite is_hostnames_field_filter.
  apply negb_true_iff in Hx. rewrite Hx. auto.
Qed.

Lemma Forall_flat_map_leaves (P : node -> Prop) (l : list node) :
  Forall (fun n => Forall P (leaves_of n)) l -> Forall P (flat_map leaves_of l).
Proof.
  induction 1 as [|x l Hx _ IHl]; simpl; [constructor|].
  apply Forall_app. split; assumption.
Qed.

(** The leaves of a plain tree are rebuilt as they are. *)
Lemma plain_leaves_fixed (n : node) :
  plain_node n = true -> Forall (fun x => field_filter x = x) (leaves_of n).
Proof.
  induction n as [nm op v f rest | nm op v f l a rest IHl
                 | nm op v f l rest IHl] using node_rect_children;
    intros Hplain.
  - simpl. constructor; [|constructor].
    destruct nm, op, v, f, rest; simpl in Hplain; try discriminate;
      unfold field_filter, leaf; simpl; [now rewrite Hplain | reflexivity].
  - destruct nm, op, v, f, a, rest; simpl in Hplain; try discriminate.
    apply andb_true_iff in Hplain as [_ Hplain].
    rewrite forallb_forall in Hplain. rewrite List.Forall_forall in IHl.
    simpl. apply Forall_flat_map_leaves, List.Forall_forall. auto.
  - destruct nm, op, v, f, rest; simpl in Hplain; try discriminate.
    apply andb_true_iff in Hplain as [_ Hplain].
    rewrite forallb_forall in Hplain. rewrite List.Forall_forall in IHl.
    simpl. apply Forall_flat_map_leaves, List.Forall_forall. auto.
Qed.

Lemma map_fixed {A} (g : A -> A) (l : list A) :
  Forall (fun x => g x = x) l -> map g l = l.
Proof. induction 1 as [|x l Hx _ IHl]; simpl; congruence. Qed.

Lemma plain_tree_leaves (tree : list node) :
  plain tree = true -> map field_filter (leaves tree) = leaves tree.
Proof.
  intros Hplain. apply map_fixed, Forall_flat_map_leaves, List.Forall_forall.
  unfold plain in Hplain. rewrite forallb_forall in Hplain.
  intros n Hn. apply plain_leaves_fixed. auto.
Qed.

(** C1 (as amended).  For every filter tree, [_hostname_filters] returns
    the tree stripped of its [hostnames] leaves together with those leaves:
    the second part lists the rebuilt [hostnames] leaves once for each
    occurrence and in order; the leaves of the first part are the other
    rebuilt leaves in their order, so none of them is named [hostnames];
    the first part keeps the and/or shape and leaves out every group
    under which nothing remains; on a plain tree the rebuilt leaves are the
    leaves themselves, and a plain tree without a [hostnames] leaf comes
    back unchanged with an empty list; the worked example of the
    specification evaluates as stated. *)
Theorem hostname_filters_extract (tree : list node) :
  _hostname_filters tree = (strip_hostnames tree, extracted tree)
  /\ leaves (fst (_hostname_filters tree)) = kept_leaves tree
  /\ Forall (fun n => is_hostnames n = false)
            (leaves (fst (_hostname_filters tree)))
  /\ (plain tree = true ->
      snd (_hostname_filters tree) = List.filter is_hostnames (leaves tree)
      /\ leaves (fst (_hostname_filters tree))
         = List.filter (fun n => negb (is_hostnames n)) (leaves tree))
  /\ (plain tree = true -> hostname_free tree = true ->
      _hostname_filters tree = (tree, []))
  /\ _hostname_filters example_tree = (example_rest, example_hostnames).
Proof.
  rewrite hostname_filters_strip. simpl fst. simpl snd.
  rewrite leaves_strip.
  split; [reflexivity|]. split; [reflexivity|]. split.
  { apply List.Forall_forall. intros n [_ Hn]%List.filter_In.
    now apply negb_true_iff. }
  split.
  { intros Hplain. unfold extracted, kept_leaves.
    now rewrite plain_tree_leaves. }
  split; [|reflexivity].
  intros Hplain Hfree.
  now rewrite strip_plain, extracted_free.
Qed.

(** The theorem at a plain tree without a [hostnames] leaf. *)
Lemma hostname_filters_extract_witness :
  let tree := [and_group [leaf (PStr "severity") (PStr "==") (PStr "high")
                               (Some (PStr "cvss"))];
               leaf (PStr "confirmed") (PStr "==") (PBool true) None] in
  plain tree = true /\ hostname_free tree = true
  /\ _hostname_filters tree = (tree, []).
Proof.
  intros tree. split; [reflexivity|]. split; [reflexivity|].
  apply (hostname_filters_extract tree); reflexivity.
Defined.

(** C1 as stated fails: a tree without a [hostnames] leaf is not always
    returned as it is, since an empty group is left out. *)
Lemma hostname_filters_noop_fails :
  hostname_free [or_group []] = true
  /\ _hostname_filters [or_group []] <> ([or_group []], []).
Proof. split; [reflexivity | discriminate]. Qed.

End FilterTree.

(** ** Computations *)

Section Monad.

Lemma bind_ret {A B} (a : A) (k : A -> M B) : (ret a ≫= k) = k a.
Proof. unfold mbind, M_bind, bind, ret. now destruct (k a). Qed.

Lemma bind_raise {A B} (e : exn) (k : A -> M B) : (raise e ≫= k) = raise e.
Proof. reflexivity. Qed.

Lemma bind_emit {A} (ev : event) (k : M A) :
  (emit ev;; k) = (ev :: fst k, snd k).
Proof. unfold mbind, M_bind, bind, emit. now destruct k. Qed.

Lemma bind_emit_unit {A} (ev : event) (k : unit -> M A) :
  (emit ev ≫= k) = (ev :: fst (k tt), snd (k tt)).
Proof. unfold mbind, M_bind, bind, emit. now destruct (k tt). Qed.

Lemma emit_ret {A} (ev : event) (a : A) : (emit ev;; ret a) = ([ev], inr a).
Proof. reflexivity. Qed.

Lemma bind_lift {A B} (r : exn + A) (k : A -> M B) :
  (lift r ≫= k) = match r with inl e => raise e | inr a => k a end.
Proof. destruct r as [e|a]; [reflexivity | apply bind_ret]. Qed.

Lemma bind_item {A B} (entry : option A) (key : string) (k : A -> M B) :
  (item entry key ≫= k)
  = match entry with Some v => k v | None => raise (KeyError key) end.
Proof. destruct entry; [apply bind_ret | reflexivity]. Qed.

Lemma bind_pure {A B} (tr : list event) (r : exn + A) (k : A -> M B) :
  ((tr, r) ≫= k)
  = match r with
    | inl e => (tr, inl e)
    | inr a => (tr ++ fst (k a), snd (k a))
    end.
Proof.
  unfold mbind, M_bind, bind. destruct r; [reflexivity|]. now destruct (k a).
Qed.

End Monad.

(** ** The synthesised query *)

Section Query.
Context `{Collaborators}.

Lemma scoped_filter_workspace (workspace : Workspace) (q : query) :
  scoped workspace (q_filter (in_workspace workspace) q).
Proof.
  apply List.Forall_forall. intros r [_ Hr]%List.filter_In.
  now apply Z.eqb_eq.
Qed.

Lemma scoped_filter (workspace : Workspace) cond (q : query) :
  scoped workspace q -> scoped workspace (q_filter cond q).
Proof.
  unfold scoped. rewrite !List.Forall_forall.
  intros Hq r [Hr _]%List.filter_In. auto.
Qed.

Lemma scoped_inner_join {B} (workspace : Workspace) (table : list B)
    on bind_ (q : query) :
  (forall r b, r_vuln (bind_ r b) = r_vuln r) ->
  scoped workspace q -> scoped workspace (inner_join table on bind_ q).
Proof.
  unfold scoped, inner_join. rewrite !List.Forall_forall.
  intros Hbind Hq r (r0 & Hr0 & Hr)%in_flat_map.
  apply in_map_iff in Hr as (b & <- & _). rewrite Hbind. auto.
Qed.

Lemma scoped_join_Host (workspace : Workspace) db (q : query) :
  scoped workspace q -> scoped workspace (join_Host db q).
Proof. apply scoped_inner_join. reflexivity. Qed.

Lemma scoped_join_Service (workspace : Workspace) db (q : query) :
  scoped workspace q -> scoped workspace (join_Service db q).
Proof. apply scoped_inner_join. reflexivity. Qed.

Lemma scoped_join_Hostname (workspace : Workspace) db (q : query) :
  scoped workspace q -> scoped workspace (join_Hostname db q).
Proof. apply scoped_inner_join. reflexivity. Qed.

Lemma scoped_union (workspace : Workspace) (q1 q2 : query) :
  scoped workspace q1 -> scoped workspace q2 ->
  scoped workspace (q_union q1 q2).
Proof.
  unfold scoped, q_union, from_vulns. rewrite !List.Forall_forall.
  intros H1 H2 r (v & <- & Hv)%in_map_iff. simpl.
  rewrite <- list_elem_of_In, elem_of_remove_dups, list_elem_of_In in Hv.
  apply in_map_iff in Hv as (r & <- & Hr).
  apply in_app_or in Hr as [Hr|Hr]; auto.
Qed.

Lemma scoped_hostname_union (workspace : Workspace) db conds (q : query) :
  scoped workspace q -> scoped workspace (hostname_union db conds q).
Proof.
  intros Hq. apply scoped_union; apply scoped_filter, scoped_join_Hostname,
    scoped_join_Host; [|apply scoped_join_Service]; assumption.
Qed.

Lemma scoped_os_join (workspace : Workspace) db os (q : query) :
  scoped workspace q -> scoped workspace (os_join db os q).
Proof.
  intros Hq. now apply scoped_filter, scoped_join_Service, scoped_join_Host.
Qed.

(** The conditions built from the extracted predicates: one for each
    value, or [KeyError] when a predicate has no ["val"]. *)
Lemma for_each_hostname_condition (l : list node) :
  for_each hostname_condition l
  = match mapM n_val l with
    | Some vals => ret (map Hostname_name_eq vals)
    | None => raise (KeyError "val")
    end.
Proof.
  induction l as [|x l IHl]; [reflexivity|].
  cbn [for_each mapM]. rewrite IHl. unfold hostname_condition.
  rewrite bind_item.
  destruct (n_val x) as [v|]; [|reflexivity].
  rewrite bind_ret. destruct (mapM n_val l); reflexivity.
Qed.

(** [_generate_filter_query] computed: the translator is called once, on
    the payload left by [split_host_os]; its rows are scoped to the
    workspace, united over the hostname paths when predicates were
    extracted, and joined for the operating system when one was. *)
Lemma generate_filter_query_eq db cls filters hostname_filters workspace
    params :
  _generate_filter_query db cls filters hostname_filters workspace params
  = let os := fst (split_host_os filters) in
    let handed := snd (split_host_os filters) in
    match search db cls handed with
    | inl e => ([Translated handed], inl e)
    | inr found =>
        let base := q_filter (in_workspace workspace) (from_vulns found) in
        let named :=
          if nonempty hostname_filters
          then (fun vals => hostname_union db (map Hostname_name_eq vals) base)
                 <$> mapM n_val hostname_filters
          else Some base in
        match named, os with
        | None, _ => ([Translated handed], inl (KeyError "val"))
        | Some named, None => ([Translated handed], inr (handed, named))
        | Some named, Some f =>
            match n_val f with
            | Some os_value =>
                ([Translated handed],
                 inr (handed, os_join db os_value named))
            | None => ([Translated handed], inl (KeyError "val"))
            end
        end
    end.
Proof.
  unfold _generate_filter_query.
  destruct (split_host_os filters) as [os handed]. cbn [fst snd].
  rewrite bind_emit, bind_lift.
  destruct (search db cls handed) as [e|found]; [reflexivity|].
  cbn zeta.
  destruct (nonempty hostname_filters).
  - rewrite for_each_hostname_condition.
    destruct (mapM n_val hostname_filters) as [vals|]; [|reflexivity].
    rewrite bind_ret, bind_ret.
    destruct os as [f|]; cbn [fmap option_fmap option_map].
    + rewrite bind_item. destruct (n_val f); [|reflexivity].
      now rewrite !bind_ret.
    + now rewrite !bind_ret.
  - rewrite bind_ret.
    destruct os as [f|].
    + rewrite bind_item. destruct (n_val f); [|reflexivity].
      now rewrite !bind_ret.
    + now rewrite !bind_ret.
Qed.

(** C2.  Whatever the filters, the extracted hostname predicates and the
    workspace, every row of the query that [_generate_filter_query]
    produces is a vulnerability of the workspace passed in. *)
Theorem generate_filter_query_scoped db cls filters hostname_filters
    workspace params tr handed q :
  _generate_filter_query db cls filters hostname_filters workspace params
  = (tr, inr (handed, q)) ->
  Forall (fun r => v_workspace_id (r_vuln r) = ws_id workspace) q.
Proof.
  rewrite generate_filter_query_eq. cbn zeta.
  destruct (search db cls _) as [e|found]; [discriminate|].
  pose proof (scoped_filter_workspace workspace (from_vulns found)) as Hbase.
  destruct (nonempty hostname_filters).
  - destruct (mapM n_val hostname_filters) as [vals|];
      cbn [fmap option_fmap option_map]; [|discriminate].
    destruct (fst (split_host_os filters)) as [f|].
    + destruct (n_val f); [|discriminate].
      intros [= _ _ <-]. now apply scoped_os_join, scoped_hostname_union.
    + intros [= _ _ <-]. now apply scoped_hostname_union.
  - destruct (fst (split_host_os filters)) as [f|].
    + destruct (n_val f); [|discriminate].
      intros [= _ _ <-]. now apply scoped_os_join.
    + intros [= _ _ <-]. exact Hbase.
Qed.

Lemma in_inner_join {B} (table : list B) on bind_ (q : query) (r : row) :
  In r (inner_join table on bind_ q)
  <-> exists r0 b, In r0 q /\ In b table /\ on r0 b = true /\ r = bind_ r0 b.
Proof.
  unfold inner_join. rewrite in_flat_map. split.
  - intros (r0 & Hr0 & Hr). apply in_map_iff in Hr as (b & <- & Hb).
    apply List.filter_In in Hb as [Hb Hon]. eauto 8.
  - intros (r0 & b & Hr0 & Hb & Hon & ->). exists r0. split; [assumption|].
    apply in_map, List.filter_In. auto.
Qed.

Lemma in_from_vulns (vs : list Vuln) (r : row) :
  In r (from_vulns vs) <-> exists v, In v vs /\ r = Build_row v None None None.
Proof.
  unfold from_vulns. rewrite in_map_iff. split; intros (v & Hv & Hr); eauto.
Qed.

Lemma in_or_conditions (vals : list pyval) (r : row) :
  or_ (map Hostname_name_eq vals) r = true
  <-> exists val, In val vals /\ Hostname_name_eq val r = true.
Proof.
  unfold or_. rewrite existsb_exists. split.
  - intros (c & Hc & Hr). apply in_map_iff in Hc as (val & <- & Hval). eauto.
  - intros (val & Hval & Hr). exists (Hostname_name_eq val).
    split; [now apply in_map | assumption].
Qed.

Lemma id_is_eq (fk : option Z) (pk : Z) : id_is fk pk = true <-> fk = Some pk.
Proof.
  destruct fk as [i|]; simpl; [|split; discriminate].
  rewrite Z.eqb_eq. split; congruence.
Qed.

(** The vulnerabilities selected along [Host] then [Hostname]. *)
Lemma in_host_path db (vals : list pyval) (vs : list Vuln) (v : Vuln) :
  In v (map r_vuln
          (q_filter (or_ (map Hostname_name_eq vals))
             (join_Hostname db (join_Host db (from_vulns vs)))))
  <-> In v vs /\ via_host db vals v.
Proof.
  rewrite in_map_iff. split.
  - intros (r & <- & Hr). apply List.filter_In in Hr as [Hr Hcond].
    apply in_inner_join in Hr as (r1 & hn & Hr1 & Hhn & Hon & ->).
    apply in_inner_join in Hr1 as (r0 & h & Hr0 & Hh & Hon0 & ->).
    apply in_from_vulns in Hr0 as (v & Hv & ->). simpl in *.
    apply id_is_eq in Hon0. apply Z.eqb_eq in Hon.
    apply in_or_conditions in Hcond as (val & Hval & Hmatch).
    unfold Hostname_name_eq in Hmatch. simpl in Hmatch.
    split; [assumption|]. exists (h_id h). split; [assumption|].
    exists h, hn, val. auto 8.
  - intros (Hv & i & Hi & h & hn & val & Hh & <- & Hhn & Hhost & Hval & Hm).
    exists (Build_row v (Some h) None (Some hn)). split; [reflexivity|].
    apply List.filter_In. split.
    + apply in_inner_join.
      exists (Build_row v (Some h) None None), hn.
      split; [|split; [assumption|split; [now apply Z.eqb_eq|reflexivity]]].
      apply in_inner_join. exists (Build_row v None None None), h.
      split; [apply in_from_vulns; eauto|].
      split; [assumption|]. split; [now apply id_is_eq | reflexivity].
    + apply in_or_conditions. exists val. auto.
Qed.

(** The vulnerabilities selected along [Service], [Host], [Hostname]. *)
Lemma in_service_path db (vals : list pyval) (vs : list Vuln) (v : Vuln) :
  In v (map r_vuln
          (q_filter (or_ (map Hostname_name_eq vals))
             (join_Hostname db
                (join_Host db (join_Service db (from_vulns vs))))))
  <-> In v vs /\ via_service db vals v.
Proof.
  rewrite in_map_iff. split.
  - intros (r & <- & Hr). apply List.filter_In in Hr as [Hr Hcond].
    apply in_inner_join in Hr as (r2 & hn & Hr2 & Hhn & Hon & ->).
    apply in_inner_join in Hr2 as (r1 & h & Hr1 & Hh & Hon1 & ->).
    apply in_inner_join in Hr1 as (r0 & sv & Hr0 & Hs & Hon0 & ->).
    apply in_from_vulns in Hr0 as (v & Hv & ->). simpl in *.
    apply id_is_eq in Hon0. apply Z.eqb_eq in Hon, Hon1.
    apply in_or_conditions in Hcond as (val & Hval & Hmatch).
    unfold Hostname_name_eq in Hmatch. simpl in Hmatch.
    split; [assumption|]. exists sv. split; [assumption|].
    split; [assumption|]. exists h, hn, val. repeat split; auto; congruence.
  - intros (Hv & sv & Hs & Hsv & h & hn & val & Hh & Hid & Hhn & Hhost
            & Hval & Hm).
    exists (Build_row v (Some h) (Some sv) (Some hn)).
    split; [reflexivity|]. apply List.filter_In. split.
    + apply in_inner_join.
      exists (Build_row v (Some h) (Some sv) None), hn.
      split; [|split; [assumption|split; [|reflexivity]]].
      2:{ simpl. apply Z.eqb_eq. congruence. }
      apply in_inner_join. exists (Build_row v None (Some sv) None), h.
      split; [|split; [assumption|split; [|reflexivity]]].
      2:{ simpl. apply Z.eqb_eq. congruence. }
      apply in_inner_join. exists (Build_row v None None None), sv.
      split; [apply in_from_vulns; eauto|].
      split; [assumption|]. split; [now apply id_is_eq | reflexivity].
    + apply in_or_conditions. exists val. auto.
Qed.


Lemma map_vuln_from_vulns (vs : list Vuln) : map r_vuln (from_vulns vs) = vs.
Proof. unfold from_vulns. rewrite map_map. apply map_id. Qed.

(** The rows of a union are the rows of either side, each once. *)
Lemma in_union (q1 q2 : query) (v : Vuln) :
  In v (map r_vuln (q_union q1 q2))
  <-> In v (map r_vuln q1) \/ In v (map r_vuln q2).
Proof.
  unfold q_union. rewrite map_vuln_from_vulns.
  rewrite <- list_elem_of_In, elem_of_remove_dups, list_elem_of_In.
  rewrite map_app. apply in_app_iff.
Qed.






End Query.

(** ** The filter orchestrator *)

Section Orchestrator.
Context `{Collaborators}.

(** C6, at a nested predicate.  A [host__os] predicate under an [and]
    group is not extracted: [split_host_os] returns the payload as it is,
    and the payload handed to the generic translator still contains the
    predicate. *)
Theorem nested_host_os_reaches_translator db workspace params :
  let filters :=
    Build_payload (Some [and_group [Demo.host_os_is "linux"]])
                  None None None [] in
  existsb names_host_os (leaves (default [] (p_filters filters))) = true
  /\ split_host_os filters = (None, filters)
  /\ head (fst (_generate_filter_query db VulnerabilityGeneric filters []
                   workspace params))
     = Some (Translated filters).
Proof.
  intros filters. split; [reflexivity|]. split; [reflexivity|].
  rewrite generate_filter_query_eq. cbn zeta.
  change (snd (split_host_os filters)) with filters.
  destruct (search db VulnerabilityGeneric filters); reflexivity.
Qed.

Lemma try_except_ret {A} (a : A) handler : try_except (ret a) handler = ret a.
Proof. reflexivity. Qed.

Lemma try_except_ok {A} tr (a : A) handler :
  try_except (tr, inr a) handler = (tr, inr a).
Proof. reflexivity. Qed.




(** The parsing stage on a text that loads. *)
Lemma filter_loaded {B} text parsed loaded
    (k : payload * list node -> M B) :
  json_loads text = Some parsed -> schema_load parsed = Some loaded ->
  (try_except
     (parsed ← or_raise JSONDecodeError (json_loads text);
      filters ← or_raise ValidationError (schema_load parsed);
      ret (split_hostnames filters))
     (fun ex => match ex with
                | ValidationError | JSONDecodeError =>
                    emit (Logged ex);; abort 400 "Invalid filters"
                | _ => raise ex
                end) ≫= k)
  = k (split_hostnames loaded).
Proof.
  intros Hjson Hload. rewrite Hjson. cbn [or_raise]. rewrite bind_ret.
  rewrite Hload. cbn [or_raise]. rewrite bind_ret, try_except_ret.
  apply bind_ret.
Qed.





(** C7.  A text that is not JSON, or whose JSON the schema rejects, makes
    [_filter] abort with status 400 and the message [Invalid filters]; the
    only event is the logged exception, so that nothing is handed to the
    translator and no statement is run. *)
Theorem filter_invalid db text name :
  json_loads text = None
  \/ (exists parsed, json_loads text = Some parsed
                     /\ schema_load parsed = None) ->
  exists ex,
    (ex = JSONDecodeError \/ ex = ValidationError)
    /\ _filter db text name
       = ([Logged ex], inl (HTTPException 400 "Invalid filters")).
Proof.
  intros [Hjson | (parsed & Hjson & Hload)].
  - exists JSONDecodeError. split; [now left|].
    unfold _filter. rewrite Hjson. reflexivity.
  - exists ValidationError. split; [now right|].
    unfold _filter. rewrite Hjson. cbn [or_raise]. rewrite bind_ret, Hload.
    reflexivity.
Qed.


End Orchestrator.

(** ** Grouped counts *)

Section Counts.
Context `{Collaborators}.

Lemma for_each_ret {A B} (f : A -> M B) (g : A -> B) (l : list A) :
  Forall (fun x => f x = ret (g x)) l -> for_each f l = ret (map g l).
Proof.
  induction 1 as [|x l Hx _ IHl]; [reflexivity|].
  cbn [for_each map]. now rewrite Hx, bind_ret, IHl, !bind_ret.
Qed.

Lemma severity_label_other (v : pyval) :
  v <> PStr "informational" -> v <> PStr "medium" -> severity_label v = v.
Proof.
  intros Hinfo Hmed. destruct v as [| | |s| |]; try reflexivity.
  unfold severity_label, severity_map.
  rewrite lookup_insert_ne by congruence.
  rewrite lookup_singleton_ne by congruence. reflexivity.
Qed.

Lemma convert_group_ok (group : gmap string pyval) (severity : pyval) :
  group !! "severity" = Some severity -> hashable severity ->
  convert_group group = ret (relabelled severity group).
Proof.
  intros Hsev Hhash. unfold convert_group. rewrite Hsev.
  cbn [item]. rewrite bind_ret. now destruct severity.
Qed.

(** C4.  With [group_by] equal to [severity], [count] rewrites every
    group of the response: its [severity] and its [name] both become the
    label of its severity, which is [info] for [informational], [med] for
    [medium] and the severity itself otherwise; the other entries of the
    group and of the response stay. *)
Theorem count_severity_labels (res : count_response) :
  Forall (fun group => exists severity,
              group !! "severity" = Some severity /\ hashable severity)
         (groups res) ->
  (exists converted,
      count (Some "severity") res
      = ret {| groups := converted; total_count := total_count res |}
      /\ Forall2
           (fun group group' =>
              exists severity,
                group !! "severity" = Some severity
                /\ group' !! "severity" = Some (severity_label severity)
                /\ group' !! "name" = Some (severity_label severity)
                /\ forall key, key <> "severity" -> key <> "name" ->
                               group' !! key = group !! key)
           (groups res) converted)
  /\ severity_label (PStr "informational") = PStr "info"
  /\ severity_label (PStr "medium") = PStr "med"
  /\ (forall v, v <> PStr "informational" -> v <> PStr "medium" ->
                severity_label v = v).
Proof.
  intros Hgroups. split; [|split; [reflexivity|split; [reflexivity|]]].
  2:{ apply severity_label_other. }
  set (sev := fun group : gmap string pyval =>
                default PNone (group !! "severity")).
  exists (map (fun group => relabelled (sev group) group) (groups res)).
  split.
  - unfold count. rewrite bool_decide_eq_true_2 by reflexivity.
    rewrite (for_each_ret convert_group
               (fun group => relabelled (sev group) group)).
    + now rewrite bind_ret.
    + eapply Forall_impl; [exact Hgroups|].
      intros group (severity & Hsev & Hhash). cbn beta.
      unfold sev. rewrite Hsev. now apply convert_group_ok.
  - induction Hgroups as [|group l (severity & Hsev & Hhash) _ IHl];
      cbn [map]; constructor; [|exact IHl].
    exists severity. unfold sev, relabelled. rewrite Hsev. cbn [default].
    split; [reflexivity|]. split; [|split].
    + rewrite lookup_insert_ne by discriminate. apply lookup_insert_eq.
    + apply lookup_insert_eq.
    + intros key Hs Hn. now rewrite !lookup_insert_ne by congruence.
Qed.

End Counts.

(** ** Bulk deletion *)

Section BulkDelete.
Context `{Collaborators}.

Lemma eq_str_true (v : pyval) (lit : string) :
  eq_str v lit = true <-> v = PStr lit.
Proof.
  destruct v as [| | |s| |]; simpl; try (split; discriminate).
  rewrite String.eqb_eq. split; congruence.
Qed.





End BulkDelete.

(** ** Attachments *)

Section Attachments.
Context `{Collaborators}.














Lemma for_each_emit {A} (ev : A -> event) (l : list A) :
  for_each (fun x => emit (ev x)) l = (map ev l, inr (map (fun _ => tt) l)).
Proof.
  induction l as [|x l IHl]; [reflexivity|].
  cbn [for_each]. rewrite IHl, bind_emit_unit, bind_pure.
  cbn [fst snd ret]. now rewrite app_nil_r.
Qed.



End Attachments.

(** ** Worked examples on the small installation *)

Section Examples.
Import Demo.

(** C2 on the example database: the finding of the other workspace is on
    the same host and is not selected. *)
Lemma generate_filter_query_scoped_witness :
  exists tr handed q,
    _generate_filter_query (H := collaborators) db VulnerabilityGeneric
      (Build_payload (Some [host_os_is "linux"]) None None None [])
      [hostnames_is "a.com"] acme params
    = (tr, inr (handed, q))
    /\ Forall (fun r => v_workspace_id (r_vuln r) = ws_id acme) q.
Proof.
  do 3 eexists. split; [reflexivity|].
  eapply (generate_filter_query_scoped (H := collaborators) db
            VulnerabilityGeneric
            (Build_payload (Some [host_os_is "linux"]) None None None [])
            [hostnames_is "a.com"] acme params).
  reflexivity.
Defined.




(** C4 on a response with one group. *)
Lemma count_severity_labels_witness :
  exists converted,
    count (Some "severity")
      {| groups := [{[ "severity" := PStr "medium"; "count" := PInt 3 ]}];
         total_count := 3 |}
    = ret {| groups := converted; total_count := 3 |}.
Proof.
  destruct (count_severity_labels
              {| groups := [{[ "severity" := PStr "medium";
                               "count" := PInt 3 ]}];
                 total_count := 3 |}) as [(converted & Hcount & _) _].
  - constructor; [|constructor]. exists (PStr "medium").
    split; [reflexivity | exact I].
  - exists converted. exact Hcount.
Defined.


(** C7 on a text that does not parse. *)
Lemma filter_invalid_witness :
  exists ex,
    (ex = JSONDecodeError \/ ex = ValidationError)
    /\ _filter (H := collaborators) db "nonsense" "acme"
       = ([Logged ex], inl (HTTPException 400 "Invalid filters")).
Proof.
  apply (filter_invalid (H := collaborators)). left. reflexivity.
Defined.





End Examples.

(** * Further properties *)

(** ** The rewrite as a normal form *)

Section Normal.

Lemma plain_field_filter (n : node) : plain_node (field_filter n) = true.
Proof.
  unfold field_filter, leaf. simpl.
  destruct (truthy (get (n_field n))) eqn:Htruthy; [exact Htruthy | reflexivity].
Qed.

Lemma forallb_flat_map_strip (l : list node) :
  Forall (fun n => forallb plain_node (strip_node n) = true) l ->
  forallb plain_node (flat_map strip_node l) = true.
Proof.
  induction 1 as [|x l Hx _ IHl]; simpl; [reflexivity|].
  now rewrite forallb_app, Hx, IHl.
Qed.

Lemma plain_strip_node (n : node) : forallb plain_node (strip_node n) = true.
Proof.
  induction n as [nm op v f rest | nm op v f l a rest IHl
                 | nm op v f l rest IHl] using node_rect_children.
  - simpl. destruct (is_hostnames _); [reflexivity|].
    cbn [forallb]. now rewrite plain_field_filter.
  - pose proof (forallb_flat_map_strip l IHl) as Hkept. simpl.
    destruct (flat_map strip_node l); [reflexivity|].
    simpl in *. now rewrite Hkept.
  - pose proof (forallb_flat_map_strip l IHl) as Hkept. simpl.
    destruct (flat_map strip_node l); [reflexivity|].
    simpl in *. now rewrite Hkept.
Qed.

Lemma plain_strip (tree : list node) : plain (strip_hostnames tree) = true.
Proof.
  apply forallb_flat_map_strip, List.Forall_forall. intros n _.
  apply plain_strip_node.
Qed.

Lemma hostname_free_strip (tree : list node) :
  hostname_free (strip_hostnames tree) = true.
Proof.
  unfold hostname_free. rewrite leaves_strip. unfold kept_leaves.
  apply forallb_forall. now intros n [_ Hn]%List.filter_In.
Qed.

(** The rewrite is idempotent: its first part is a plain tree without a
    [hostnames] leaf, and rewriting it again returns it unchanged and
    extracts nothing. *)
Theorem hostname_filters_idempotent (tree : list node) :
  plain (fst (_hostname_filters tree)) = true
  /\ hostname_free (fst (_hostname_filters tree)) = true
  /\ _hostname_filters (fst (_hostname_filters tree))
     = (fst (_hostname_filters tree), []).
Proof.
  rewrite (hostname_filters_strip tree). cbn [fst].
  split; [apply plain_strip|]. split; [apply hostname_free_strip|].
  rewrite hostname_filters_strip.
  rewrite strip_plain by (apply plain_strip || apply hostname_free_strip).
  now rewrite extracted_free by apply hostname_free_strip.
Qed.

Lemma filter_split (p : node -> bool) (l : list node) :
  Permutation (List.filter (fun n => negb (p n)) l ++ List.filter p l) l.
Proof.
  induction l as [|x l IHl]; [constructor|].
  simpl. destruct (p x); simpl.
  - symmetry. apply Permutation_cons_app. now symmetry.
  - now constructor.
Qed.

(** No predicate is lost or repeated: the leaves of the first part
    together with the second part are the rebuilt leaves of the tree, up
    to their order. *)
Theorem hostname_filters_conserves_leaves (tree : list node) :
  Permutation
    (leaves (fst (_hostname_filters tree)) ++ snd (_hostname_filters tree))
    (map field_filter (leaves tree))
  /\ (length (leaves (fst (_hostname_filters tree)))
      + length (snd (_hostname_filters tree))
      = length (leaves tree))%nat.
Proof.
  rewrite hostname_filters_strip. cbn [fst snd]. rewrite leaves_strip.
  assert (Hperm := filter_split is_hostnames (map field_filter (leaves tree))).
  split; [exact Hperm|].
  apply Permutation_length in Hperm.
  now rewrite length_app, length_map in Hperm.
Qed.




End Normal.

(** ** More on the synthesised query *)

Section QueryMore.
Context `{Collaborators}.

Lemma filter_none_negb {A} (p : A -> bool) (l : list A) :
  List.filter p l = [] -> List.filter (fun x => negb (p x)) l = l.
Proof.
  induction l as [|x l IHl]; simpl; [reflexivity|].
  destruct (p x); [discriminate|]. intros Hl. simpl. now rewrite IHl.
Qed.

Lemma generate_filter_query_trace db cls filters hostname_filters workspace
    params :
  fst (_generate_filter_query db cls filters hostname_filters workspace
         params)
  = [Translated (snd (split_host_os filters))].
Proof.
  rewrite generate_filter_query_eq. cbn zeta.
  destruct (search db cls _); [reflexivity|].
  destruct (if nonempty hostname_filters then _ else _);
    [|reflexivity].
  destruct (fst (split_host_os filters)) as [f|]; [|reflexivity].
  destruct (n_val f); reflexivity.
Qed.

(** What the generic translator is given: the filters without any
    top-level [host__os] predicate, the other top-level nodes in their
    order and every other entry of the payload as they were; it is
    called once, before anything else. *)
Theorem translator_sees_no_top_level_host_os db cls filters
    hostname_filters workspace params :
  let handed := snd (split_host_os filters) in
  default [] (p_filters handed)
  = List.filter (fun f => negb (names_host_os f))
                (default [] (p_filters filters))
  /\ Forall (fun f => names_host_os f = false)
            (default [] (p_filters handed))
  /\ (p_group_by handed, p_limit handed, p_offset handed, p_other handed)
     = (p_group_by filters, p_limit filters, p_offset filters,
        p_other filters)
  /\ fst (_generate_filter_query db cls filters hostname_filters workspace
            params)
     = [Translated handed].
Proof.
  intros handed.
  assert (Htop : default [] (p_filters handed)
                 = List.filter (fun f => negb (names_host_os f))
                               (default [] (p_filters filters))).
  { unfold handed, split_host_os.
    destruct (List.filter names_host_os _) eqn:Hos; cbn [snd].
    - now rewrite filter_none_negb.
    - reflexivity. }
  split; [exact Htop|]. split; [|split].
  - rewrite Htop. apply List.Forall_forall.
    intros f [_ Hf]%List.filter_In. now apply negb_true_iff.
  - unfold handed, split_host_os.
    destruct (List.filter names_host_os _); reflexivity.
  - apply generate_filter_query_trace.
Qed.

Lemma selects_filter P cond (q : query) :
  selects P q -> selects P (q_filter cond q).
Proof.
  unfold selects. rewrite !List.Forall_forall.
  intros Hq r [Hr _]%List.filter_In. auto.
Qed.

Lemma selects_inner_join {B} P (table : list B) on bind_ (q : query) :
  (forall r b, r_vuln (bind_ r b) = r_vuln r) ->
  selects P q -> selects P (inner_join table on bind_ q).
Proof.
  unfold selects. rewrite !List.Forall_forall.
  intros Hbind Hq r (r0 & b & Hr0 & _ & _ & ->)%in_inner_join.
  rewrite Hbind. auto.
Qed.

Lemma selects_union P (q1 q2 : query) :
  selects P q1 -> selects P q2 -> selects P (q_union q1 q2).
Proof.
  unfold selects. rewrite !List.Forall_forall.
  intros H1 H2 r (v & Hv & ->)%in_from_vulns. cbn [r_vuln].
  assert (Hin : In v (map r_vuln (q_union q1 q2))).
  { unfold q_union. now rewrite map_vuln_from_vulns. }
  apply in_union in Hin as [Hin | Hin];
    apply in_map_iff in Hin as (r & <- & Hr); auto.
Qed.

Lemma selects_hostname_union P db conds (q : query) :
  selects P q -> selects P (hostname_union db conds q).
Proof.
  intros Hq. unfold hostname_union, join_Hostname, join_Host, join_Service.
  apply selects_union; apply selects_filter;
    repeat (apply selects_inner_join; [reflexivity|]); exact Hq.
Qed.

Lemma selects_os_join P db os (q : query) :
  selects P q -> selects P (os_join db os q).
Proof.
  intros Hq. unfold os_join, join_Host, join_Service.
  apply selects_filter.
  repeat (apply selects_inner_join; [reflexivity|]). exact Hq.
Qed.

(** The synthesised query only narrows what the translator selected:
    every row it returns is a vulnerability among those that [search]
    returned for the payload it was handed. *)
Theorem generate_filter_query_narrows db cls filters hostname_filters
    workspace params tr handed q :
  _generate_filter_query db cls filters hostname_filters workspace params
  = (tr, inr (handed, q)) ->
  exists found,
    search db cls handed = inr found
    /\ Forall (fun r => In (r_vuln r) found) q.
Proof.
  rewrite generate_filter_query_eq. cbn zeta.
  destruct (search db cls _) as [e|found] eqn:Hsearch; [discriminate|].
  assert (Hbase : selects (fun v => In v found)
                    (q_filter (in_workspace workspace) (from_vulns found))).
  { apply selects_filter, List.Forall_forall.
    intros r (v & Hv & ->)%in_from_vulns. exact Hv. }
  intros Hrun. exists found.
  destruct (nonempty hostname_filters).
  - destruct (mapM n_val hostname_filters) as [vals|];
      cbn [fmap option_fmap option_map] in Hrun; [|discriminate].
    destruct (fst (split_host_os filters)) as [f|].
    + destruct (n_val f); [|discriminate].
      injection Hrun as _ <- <-. split; [exact Hsearch|].
      apply (selects_os_join (fun v => In v found)).
      now apply selects_hostname_union.
    + injection Hrun as _ <- <-. split; [exact Hsearch|].
      now apply (selects_hostname_union (fun v => In v found)).
  - destruct (fst (split_host_os filters)) as [f|].
    + destruct (n_val f); [|discriminate].
      injection Hrun as _ <- <-. split; [exact Hsearch|].
      now apply (selects_os_join (fun v => In v found)).
    + injection Hrun as _ <- <-. split; [exact Hsearch | exact Hbase].
Qed.




End QueryMore.

(** ** More on the orchestrator *)

Section OrchestratorMore.
Context `{Collaborators}.


Lemma split_hostnames_keeps (loaded : payload) :
  (p_group_by (fst (split_hostnames loaded)),
   p_limit (fst (split_hostnames loaded)),
   p_offset (fst (split_hostnames loaded)))
  = (p_group_by loaded, p_limit loaded, p_offset loaded).
Proof.
  unfold split_hostnames. destruct (payload_truthy loaded); [|reflexivity].
  now destruct (_hostname_filters _).
Qed.


(** The ungrouped path when the query builder raises. *)
Lemma filter_ungrouped_error db text name parsed loaded workspace tr e :
  json_loads text = Some parsed -> schema_load parsed = Some loaded ->
  p_group_by loaded = None ->
  get_workspace db name = Some workspace ->
  _generate_filter_query db VulnerabilityGeneric
    (pop_limit (pop_offset (fst (split_hostnames loaded))))
    (snd (split_hostnames loaded)) workspace
    {| mp_many := true; mp_exclude := ["_attachments"] |}
  = (tr, inl e) ->
  _filter db text name
  = (Sql (WorkspaceByName name) :: tr,
     inl match e with
         | AttributeError msg => HTTPException 400 msg
         | _ => e
         end).
Proof.
  intros Hjson Hload Hgroup Hws Hrun.
  unfold _filter. rewrite (filter_loaded _ _ _ _ Hjson Hload).
  pose proof (split_hostnames_keeps loaded) as Hkeep.
  destruct (split_hostnames loaded) as [filters hf]. cbn [fst snd] in *.
  injection Hkeep as Hg Hl Ho.
  unfold _get_workspace. rewrite Hws, emit_ret, bind_pure. cbn [fst snd].
  rewrite Hg, Hgroup, Hrun. unfold try_except.
  destruct e; unfold abort, raise; cbn iota beta;
    rewrite bind_pure, app_nil_r; reflexivity.
Qed.

(** The grouped path. *)
Lemma filter_grouped_eq db text name parsed loaded workspace group_by :
  json_loads text = Some parsed -> schema_load parsed = Some loaded ->
  p_group_by loaded = Some group_by ->
  get_workspace db name = Some workspace ->
  let run := _generate_filter_query db VulnerabilityGeneric
               (fst (split_hostnames loaded))
               (snd (split_hostnames loaded)) workspace
               {| mp_many := true; mp_exclude := ["_attachments"] |} in
  _filter db text name
  = match snd run with
    | inl e => (Sql (WorkspaceByName name) :: fst run, inl e)
    | inr (handed, q) =>
        (Sql (WorkspaceByName name)
           :: fst run ++ [Sql (GroupedOver handed q)],
         get_filtered_data handed q)
    end.
Proof.
  intros Hjson Hload Hgroup Hws run. unfold run.
  unfold _filter. rewrite (filter_loaded _ _ _ _ Hjson Hload).
  pose proof (split_hostnames_keeps loaded) as Hkeep.
  destruct (split_hostnames loaded) as [filters hf]. cbn [fst snd] in *.
  injection Hkeep as Hg Hl Ho.
  unfold _get_workspace. rewrite Hws, emit_ret, bind_pure. cbn [fst snd].
  rewrite Hg, Hgroup.
  destruct (_generate_filter_query db VulnerabilityGeneric filters hf
              workspace _) as [tr [e|[handed q]]]; cbn [fst snd].
  - reflexivity.
  - rewrite bind_pure. cbn [fst snd]. rewrite bind_emit.
    unfold lift. cbn [fst snd]. reflexivity.
Qed.

(** When the generic translator raises [AttributeError], the ungrouped
    path answers 400 with the message of the exception, and the grouped
    path lets the exception through; in both, the translator was called
    after the workspace lookup and no statement for rows was run. *)
Theorem filter_translator_error db text name parsed loaded workspace msg :
  json_loads text = Some parsed -> schema_load parsed = Some loaded ->
  get_workspace db name = Some workspace ->
  let filters :=
    match p_group_by loaded with
    | None => pop_limit (pop_offset (fst (split_hostnames loaded)))
    | Some _ => fst (split_hostnames loaded)
    end in
  let handed := snd (split_host_os filters) in
  search db VulnerabilityGeneric handed = inl (AttributeError msg) ->
  _filter db text name
  = ([Sql (WorkspaceByName name); Translated handed],
     inl match p_group_by loaded with
         | None => HTTPException 400 msg
         | Some _ => AttributeError msg
         end).
Proof.
  intros Hjson Hload Hws filters handed Hsearch.
  assert (Hrun : _generate_filter_query db VulnerabilityGeneric filters
                   (snd (split_hostnames loaded)) workspace
                   {| mp_many := true; mp_exclude := ["_attachments"] |}
                 = ([Translated handed], inl (AttributeError msg))).
  { rewrite generate_filter_query_eq. cbn zeta. fold handed.
    now rewrite Hsearch. }
  unfold filters in *. destruct (p_group_by loaded) as [g|] eqn:Hgroup.
  - rewrite (filter_grouped_eq db text name parsed loaded workspace g
               Hjson Hload Hgroup Hws).
    cbn zeta. now rewrite Hrun.
  - now rewrite (filter_ungrouped_error db text name parsed loaded workspace
                   _ _ Hjson Hload Hgroup Hws Hrun).
Qed.


End OrchestratorMore.

(** ** Envelopes, the filter endpoint and the CSV export *)

Section EndpointFacts.
Context `{Collaborators}.

Lemma envelope_loop (objects : list serialized) (n : nat)
    (acc : list envelope_entry) :
  fold_left
    (fun '(index, vulns) vuln =>
       (S index, vulns ++ [envelope_entry_of index vuln]))
    objects (n, acc)
  = ((n + length objects)%nat,
     acc ++ imap (fun i => envelope_entry_of (n + i)) objects).
Proof.
  revert n acc. induction objects as [|x l IHl]; intros n acc.
  - simpl. now rewrite Nat.add_0_r, app_nil_r.
  - cbn [fold_left imap length]. rewrite IHl, <- app_assoc. f_equal; [lia|].
    cbn [app]. rewrite Nat.add_0_r. do 2 f_equal.
    apply imap_ext. intros i y _. cbn. f_equal. lia.
Qed.

(** [_envelope_list] lists one entry for each object, in order; the
    entry at position [i] wraps the object at position [i], with its
    [_id] as id and key, or the position [i] when the object has no [_id];
    the count is the total of the pagination when one is given and the
    number of objects otherwise. *)
Theorem envelope_list_entries (objects : list serialized)
    (pagination_metadata : option nat) :
  let answer := _envelope_list objects pagination_metadata in
  length (env_vulnerabilities answer) = length objects
  /\ (forall i vuln,
        objects !! i = Some vuln ->
        env_vulnerabilities answer !! i
        = Some {| e_id := default (PInt (Z.of_nat i)) (assoc_get "_id" vuln);
                  e_key := default (PInt (Z.of_nat i)) (assoc_get "_id" vuln);
                  e_value := vuln |})
  /\ env_count answer = default (length objects) pagination_metadata.
Proof.
  intros answer.
  assert (Hentries : env_vulnerabilities answer
                     = imap envelope_entry_of objects).
  { unfold answer, _envelope_list. cbn [env_vulnerabilities].
    rewrite envelope_loop. reflexivity. }
  assert (Hlen : length (env_vulnerabilities answer) = length objects)
    by (rewrite Hentries; apply length_imap).
  split; [exact Hlen|]. split.
  - intros i vuln Hi. rewrite Hentries, list_lookup_imap, Hi. reflexivity.
  - destruct pagination_metadata; [reflexivity | exact Hlen].
Qed.



(** The two bulk queries never select a row of another workspace: what
    they return are rows of the table that belong to the workspace of
    the request, also when ids of other workspaces are listed. *)
Theorem bulk_queries_scoped db ids by_ name :
  (forall tr rows,
      _bulk_delete_query db ids by_ name = (tr, inr rows) ->
      exists workspace,
        get_workspace db name = Some workspace
        /\ Forall (fun v => In v (db_vulns db)
                            /\ v_workspace_id v = ws_id workspace) rows)
  /\ (forall tr rows,
        _bulk_update_query db ids name = (tr, inr rows) ->
        exists workspace,
          get_workspace db name = Some workspace
          /\ Forall (fun v => In v (db_vulns db)
                              /\ v_workspace_id v = ws_id workspace) rows).
Proof.
  split; intros tr rows.
  - unfold _bulk_delete_query, _get_workspace.
    destruct (iterate ids) as [tr0 [e|values]] eqn:Hit;
      rewrite bind_pure; [discriminate|]. cbn [fst snd].
    destruct (get_workspace db name) as [workspace|]; [|discriminate].
    rewrite emit_ret, bind_pure. cbn [fst snd ret].
    intros [= _ <-]. exists workspace. split; [reflexivity|].
    apply List.Forall_forall. intros v [Hv Hws]%List.filter_In.
    apply Z.eqb_eq in Hws. split; [|exact Hws].
    destruct (negb _); now apply List.filter_In in Hv.
  - unfold _bulk_update_query, _get_workspace.
    destruct (iterate ids) as [tr0 [e|values]] eqn:Hit;
      rewrite bind_pure; [discriminate|]. cbn [fst snd].
    destruct (get_workspace db name) as [workspace|]; [|discriminate].
    rewrite emit_ret, bind_pure. cbn [fst snd ret].
    intros [= _ <-]. exists workspace. split; [reflexivity|].
    apply List.Forall_forall. intros v [Hv Hws]%List.filter_In.
    apply Z.eqb_eq in Hws. now apply List.filter_In in Hv as [Hv _].
Qed.

End EndpointFacts.

(** ** Attachments served and removed, objects created and updated *)

Section PersistenceFacts.
Context `{Collaborators} `{Backend}.

Lemma percent_spaces_free (s : string) : free_of " " (percent_spaces s).
Proof.
  unfold free_of. induction s as [|c s IHs]; simpl; [tauto|].
  destruct (Ascii.eqb c " ") eqn:Heq; simpl.
  - intros [Hc|[Hc|[Hc|Hin]]]; try discriminate. auto.
  - apply Ascii.eqb_neq in Heq. intros [Hc|Hin]; [congruence | auto].
Qed.

Lemma file_named_some db vuln_id filename f :
  file_named db vuln_id filename = Some f ->
  In f (db_files db) /\ f_object_type f = "vulnerability"
  /\ f_object_id f = vuln_id /\ f_filename f = filename.
Proof.
  unfold file_named. intros [Hin Hf]%List.find_some.
  apply andb_true_iff in Hf as [[Htype Hid]%andb_true_iff Hname].
  apply String.eqb_eq in Htype, Hname. apply Z.eqb_eq in Hid. auto.
Qed.

(** The upload endpoint writes only when it accepts the upload: an
    operation on the session means that the vulnerability is in the
    workspace, that a file came with the request and that no readable
    attachment of the vulnerability has its filename; otherwise nothing
    is written. *)
Theorem post_attachment_writes_only_new db file name vuln_id op :
  In (Session op) (fst (post_attachment db file name vuln_id)) ->
  nonempty (vuln_workspace_check db vuln_id name) = true
  /\ exists upload,
       file = Some upload
       /\ existsb (String.eqb (u_filename upload))
                  (dumped_attachments db vuln_id) = false
       /\ (op = Commit
           \/ op = GetOrCreate
                     {| f_object_id := vuln_id;
                        f_object_type := "vulnerability";
                        f_name := u_filename upload;
                        f_filename := u_filename upload;
                        f_content := u_read upload |}).
Proof.
  unfold post_attachment.
  destruct (nonempty (vuln_workspace_check db vuln_id name));
    [|intros [[=]|[]]].
  destruct file as [upload|]; [|intros [[=]|[]]].
  destruct (existsb _ (dumped_attachments db vuln_id)) eqn:Hdup;
    [intros [[=]|[]]|].
  intros [[=]|[[= <-]|[[= <-]|[]]]]; (split; [reflexivity|]);
    exists upload; auto.
Qed.

(** What [get_attachment] serves: a file of that vulnerability, which is
    in the workspace, stored under the requested filename with each space
    written [%20]; its filename has no space, so that an attachment stored
    under a filename with a space is never served.  It is sent inline
    exactly when its content type starts with [image/]. *)
Theorem get_attachment_serves db name vuln_id requested tr sent :
  get_attachment db name vuln_id requested = (tr, inr sent) ->
  nonempty (vuln_workspace_check db vuln_id name) = true
  /\ sf_attachment_filename sent = percent_spaces requested
  /\ free_of " " (sf_attachment_filename sent)
  /\ sf_as_attachment sent = negb (String.prefix "image/" (sf_mimetype sent))
  /\ exists f,
       In f (db_files db) /\ f_object_id f = vuln_id
       /\ f_filename f = sf_attachment_filename sent
       /\ depot_read f = inr (sf_data sent)
       /\ depot_content_type f = inr (sf_mimetype sent).
Proof.
  unfold get_attachment. rewrite bind_emit.
  destruct (nonempty (vuln_workspace_check db vuln_id name));
    [|discriminate].
  destruct (file_named db vuln_id (percent_spaces requested)) as [f|] eqn:Hf;
    [|discriminate].
  apply file_named_some in Hf as (Hin & _ & Hid & Hname).
  rewrite bind_lift.
  destruct (depot_content_type f) as [e|content_type] eqn:Htype;
    [discriminate|].
  rewrite bind_lift. destruct (depot_read f) as [e|data] eqn:Hread;
    [discriminate|].
  cbn [fst snd ret]. intros [= _ <-]. cbn.
  split; [reflexivity|]. split; [exact Hname|].
  split; [rewrite Hname; apply percent_spaces_free|].
  split; [now destruct (String.prefix _ _)|].
  exists f. auto.
Qed.

(** [delete_attachment] removes at most one file, and only a file of
    that vulnerability, in the workspace, stored under exactly the
    requested filename.  The deletion is committed before the depot is
    asked to drop the content: when a file is found, the row is deleted
    and the session committed whatever the depot answers. *)
Theorem delete_attachment_removes db name vuln_id filename :
  (forall f,
      In (Session (SessionDelete f))
         (fst (delete_attachment db name vuln_id filename)) ->
      nonempty (vuln_workspace_check db vuln_id name) = true
      /\ file_named db vuln_id filename = Some f
      /\ In f (db_files db) /\ f_object_id f = vuln_id
      /\ f_filename f = filename)
  /\ (forall f,
        nonempty (vuln_workspace_check db vuln_id name) = true ->
        file_named db vuln_id filename = Some f ->
        fst (delete_attachment db name vuln_id filename)
        = [Sql (VulnInWorkspace vuln_id name);
           Session (SessionDelete f); Session Commit]).
Proof.
  unfold delete_attachment. split.
  - intros f. rewrite bind_emit. cbn [fst].
    destruct (nonempty (vuln_workspace_check db vuln_id name));
      [|intros [[=]|[]]].
    destruct (file_named db vuln_id filename) as [g|] eqn:Hg;
      [|intros [[=]|[]]].
    rewrite !bind_emit, bind_lift. cbn [fst].
    apply file_named_some in Hg as (Hin & _ & Hid & Hname).
    destruct (depot_delete g); cbn [fst raise ret];
      intros [[=]|[[= <-]|[[=]|[]]]]; auto.
  - intros f -> ->. rewrite !bind_emit, bind_lift. cbn [fst].
    now destruct (depot_delete f).
Qed.

Lemma process_attachments_none db obj_id :
  _process_attachments db obj_id []
  = (map (fun old => Session (SessionDelete old)) (evidence db obj_id),
     inr tt).
Proof.
  unfold _process_attachments. rewrite for_each_emit, bind_pure.
  cbn [for_each]. rewrite bind_ret. cbn [fst snd ret].
  now rewrite app_nil_r.
Qed.

(** An update whose body has no [_attachments] entry: a partial update
    leaves the attachments alone, a full update deletes every attachment
    of the object; either way the session is committed once, after the
    update of the base view. *)
Theorem perform_update_without_attachments db object_id obj data name
    partial tr updated :
  d_attachments data = None ->
  super_perform_update object_id obj (d_fields data) name
  = (tr, inr updated) ->
  _perform_update db object_id obj data name partial
  = (tr
       ++ (if partial then []
           else map (fun old => Session (SessionDelete old))
                    (evidence db (o_id updated)))
       ++ [Session Commit],
     inr updated).
Proof.
  intros Hnone Hsuper. unfold _perform_update. rewrite Hnone, Hsuper.
  rewrite bind_pure. cbn [fst snd]. destruct partial.
  - rewrite bind_ret, bind_emit. reflexivity.
  - cbn [process_attachments_value]. rewrite process_attachments_none.
    rewrite bind_pure. cbn [fst snd]. rewrite bind_emit. reflexivity.
Qed.

Lemma get_creator_truthy (obj : vuln_object) : truthy (get_creator obj) = true.
Proof.
  unfold get_creator. destruct (truthy (o_tool obj)) eqn:Htool; [exact Htool|].
  destruct (truthy (o_creator_command_tool obj)) eqn:Hcmd; [exact Hcmd|].
  reflexivity.
Qed.

Lemma with_tool_creator (obj : vuln_object) :
  o_tool (with_tool obj) = get_creator obj
  /\ get_creator (with_tool obj) = get_creator obj
  /\ o_id (with_tool obj) = o_id obj.
Proof.
  unfold with_tool, get_creator.
  destruct (truthy (o_tool obj)) eqn:Htool; cbn [negb].
  - now rewrite Htool.
  - destruct (truthy (o_creator_command_tool obj)) eqn:Hcmd; cbn;
      rewrite ?Hcmd; auto.
Qed.

(** When the base view cannot build the object ([TypeError]),
    [_perform_create] answers 400 and nothing is written or committed. *)
Theorem perform_create_type_error db data :
  super_perform_create (created_from data) = inl TypeError ->
  _perform_create db data = ([], inl (HTTPException 400 EmptyString)).
Proof.
  intros Hsuper. unfold _perform_create, pop. fold (created_from data).
  now rewrite Hsuper.
Qed.

(** An object that [_perform_create] returns always has a tool: the one
    it was given, else the tool of the command that created it, else
    [Web UI]; it is what [get_creator] shows for the object, before and
    after.  The commit is the last thing done. *)
Theorem perform_create_tool db data tr obj :
  _perform_create db data = (tr, inr obj) ->
  exists created,
    super_perform_create (created_from data) = inr created
    /\ let parsed :=
         parse_references created
           (default (PList []) (d_fields data !! "references"))
           (default (PList [])
              (delete "references" (d_fields data) !! "policy_violations"))
           (default (PList [])
              (delete "policy_violations"
                 (delete "references" (d_fields data)) !! "cve")) in
       o_tool obj = get_creator parsed
       /\ truthy (o_tool obj) = true
       /\ get_creator obj = get_creator parsed
       /\ o_id obj = o_id parsed
       /\ last tr = Some (Session Commit).
Proof.
  unfold _perform_create, pop. fold (created_from data).
  destruct (super_perform_create (created_from data)) as [e|created];
    [destruct e; discriminate|].
  unfold lift. rewrite try_except_ok, bind_pure. cbn [fst snd].
  set (parsed := parse_references created _ _ _).
  destruct (process_attachments_value db (o_id parsed) _) as [tr1 [e|[]]];
    rewrite bind_pure; [discriminate|]. cbn [fst snd].
  rewrite bind_emit. cbn [fst snd ret app].
  intros [= <- <-]. exists created. split; [reflexivity|].
  destruct (with_tool_creator parsed) as (Htool & Hcreator & Hid).
  split; [exact Htool|]. split; [rewrite Htool; apply get_creator_truthy|].
  split; [exact Hcreator|]. split; [exact Hid|].
  apply last_snoc.
Qed.

(** What [post_load_parent] accepts.  The keys [parent] and
    [parent_type] are always taken out.  When both are given, the data
    comes back only with the parent found in the workspace, under
    [host_id] for a [Host] and under [service_id] for a [Service], and a
    web vulnerability never comes back with a host. *)
Theorem post_load_parent_accepts name (data loaded : gmap string pyval) tr :
  post_load_parent name data = (tr, inr loaded) ->
  let parent_type := default PNone (data !! "parent_type") in
  let parent_id := default PNone (delete "parent_type" data !! "parent") in
  let rest := delete "parent" (delete "parent_type" data) in
  if truthy parent_type && truthy parent_id then
    exists id,
      (parent_type = PStr "Service"
       /\ find_parent "Service" name parent_id = Some id
       /\ loaded = <["service_id" := PInt id]> rest)
      \/ (parent_type = PStr "Host"
          /\ (exists type, data !! "type" = Some type
                           /\ type <> PStr "vulnerability_web")
          /\ find_parent "Host" name parent_id = Some id
          /\ loaded = <["host_id" := PInt id]> rest)
  else loaded = rest.
Proof.
  unfold post_load_parent, pop. cbn zeta.
  destruct (truthy _ && truthy _); cbn [negb]; [|now intros [= _ <-]].
  destruct (eq_str _ "Service") eqn:Hservice.
  - apply eq_str_true in Hservice. rewrite Hservice.
    change (eq_str (PStr "Service") "Host") with false.
    cbn iota. rewrite bind_ret.
    destruct (find_parent "Service" name _) as [id|] eqn:Hfind;
      [|discriminate].
    intros [= _ <-]. exists id. left. auto.
  - destruct (eq_str _ "Host") eqn:Hhost; [|discriminate].
    apply eq_str_true in Hhost.
    assert (Hrest : delete "parent" (delete "parent_type" data) !! "type"
                    = data !! "type").
    { rewrite !lookup_delete_ne by discriminate. reflexivity. }
    rewrite Hrest.
    destruct (data !! "type") as [type|] eqn:Htype; cbn [item];
      [|discriminate].
    rewrite !bind_ret.
    destruct (eq_str type "vulnerability_web") eqn:Hweb; [discriminate|].
    destruct (find_parent "Host" name _) as [id|] eqn:Hfind; [|discriminate].
    intros [= _ <-]. exists id. right.
    split; [exact Hhost|]. split; [|auto].
    exists type. split; [reflexivity|].
    intros ->. discriminate.
Qed.

End PersistenceFacts.

(** ** The legacy filter set *)

Section LegacyFilters.

(** The old argument names win: after the translation each new name
    holds the first value given under its old name, when there is one,
    also when the new name was given a value of its own; without the old
    name the new one is as it was, and so is every other argument. *)
Theorem translated_args_old_names (request_args : arguments) :
  (forall old_param real_param,
      In (old_param, real_param) param_mapping ->
      translated_args request_args !! real_param
      = match first_value request_args old_param with
        | Some value => Some [value]
        | None => request_args !! real_param
        end)
  /\ (forall name,
        ~ In name (map snd param_mapping) ->
        translated_args request_args !! name = request_args !! name).
Proof.
  unfold translated_args, param_mapping, arguments in *.
  cbn [fold_left map snd].
  split.
  - intros old_param real_param Hin. cbn [In] in Hin.
    destruct Hin as [[= <- <-]|[[= <- <-]|[[= <- <-]|[[= <- <-]|[]]]]];
      destruct (first_value request_args "query"),
               (first_value request_args "pname"),
               (first_value request_args "params"),
               (first_value request_args "easeofresolution");
      repeat first [rewrite lookup_insert_eq
                   | rewrite lookup_insert_ne by discriminate];
      reflexivity.
  - intros name Hname. cbn [In] in Hname.
    destruct (first_value request_args "query"),
             (first_value request_args "pname"),
             (first_value request_args "params"),
             (first_value request_args "easeofresolution");
      rewrite ?lookup_insert_ne by (intros <-; tauto); reflexivity.
Qed.

Lemma name_in_or (value_list : list string) (r : row) :
  Hostname_name_in value_list r
  = or_ (map Hostname_name_eq (map PStr value_list)) r.
Proof.
  unfold or_. induction value_list as [|x l IHl]; cbn [map existsb].
  - unfold Hostname_name_in. now destruct (r_hostname r).
  - rewrite <- IHl. unfold Hostname_name_in, Hostname_name_eq.
    destruct (r_hostname r); [|reflexivity].
    cbn. f_equal. apply String.eqb_sym.
Qed.

Lemma inner_join_ext {B} (table : list B) on1 on2 bind1 bind2 (q : query) :
  (forall r b, In r q -> on1 r b = on2 r b) ->
  (forall r b, In r q -> bind1 r b = bind2 r b) ->
  inner_join table on1 bind1 q = inner_join table on2 bind2 q.
Proof.
  intros Hon Hbind. unfold inner_join.
  induction q as [|r q IHq]; [reflexivity|].
  cbn [flat_map]. rewrite IHq by (intros; (apply Hon || apply Hbind); now right).
  f_equal. rewrite (List.filter_ext (on1 r) (on2 r))
    by (intros b; apply Hon; now left).
  apply map_ext. intros b. apply Hbind. now left.
Qed.

(** On a query without joins, the legacy [hostnames] filter is the
    union of the filter-tree path, over the values between the commas,
    with its two sides exchanged. *)
Lemma HostnamesFilter_as_union db (vs : list Vuln) (value : string) :
  let conds := map Hostname_name_eq (map PStr (split_on "," value)) in
  HostnamesFilter_filter db (from_vulns vs) value
  = q_union
      (q_filter (or_ conds)
         (join_Hostname db (join_Host db (join_Service db (from_vulns vs)))))
      (q_filter (or_ conds) (join_Hostname db (join_Host db (from_vulns vs)))).
Proof.
  intros conds. unfold HostnamesFilter_filter, q_filter. cbn zeta.
  rewrite !(List.filter_ext _ _ (name_in_or (split_on "," value))).
  fold conds. f_equal; f_equal; f_equal.
  - f_equal. unfold join_Service. apply inner_join_ext; [|reflexivity].
    now intros r b (v & _ & ->)%in_from_vulns.
  - unfold join_Host. apply inner_join_ext; [|reflexivity].
    now intros r b (v & _ & ->)%in_from_vulns.
Qed.

(** The legacy [hostnames] filter and the filter-tree path agree: over
    the vulnerabilities of a query without joins, the filter with the
    value [a,b] selects what the extracted predicates with the values [a]
    and [b] select, each vulnerability once. *)
Theorem HostnamesFilter_agrees db (vs : list Vuln) (value : string) :
  let vals := map PStr (split_on "," value) in
  (forall v,
      In v (map r_vuln (HostnamesFilter_filter db (from_vulns vs) value))
      <-> In v (map r_vuln
                  (hostname_union db (map Hostname_name_eq vals)
                                  (from_vulns vs))))
  /\ (forall v,
        In v (map r_vuln (HostnamesFilter_filter db (from_vulns vs) value))
        <-> In v vs /\ (via_host db vals v \/ via_service db vals v))
  /\ List.NoDup (map r_vuln (HostnamesFilter_filter db (from_vulns vs) value)).
Proof.
  intros vals. rewrite HostnamesFilter_as_union. cbn zeta. fold vals.
  split; [|split].
  - intros v. unfold hostname_union. rewrite !in_union. tauto.
  - intros v. rewrite in_union, in_host_path, in_service_path. tauto.
  - unfold q_union. rewrite map_vuln_from_vulns.
    apply NoDup_ListNoDup, NoDup_remove_dups.
Qed.

End LegacyFilters.

(** ** Authentication of a request and the login form *)

Section AuthenticationFacts.
Context `{Accounts}.

(** A token is accepted only when it decodes, names a user, and its
    validation check verifies against the password of that user. *)
Lemma verify_token_user (token : string) tr (user : account) :
  verify_token token = (tr, inr (Some user)) ->
  exists data user_id check,
    jwt_decode token = Decoded data
    /\ data !! "user_id" = Some user_id
    /\ user_by_uniquifier user_id = Some user
    /\ data !! "validation_check" = Some check
    /\ verify_hash check (a_password user) = true.
Proof.
  unfold verify_token. destruct (jwt_decode token) as [data| | |e];
    try discriminate.
  rewrite bind_item. destruct (data !! "user_id") as [user_id|] eqn:Hid;
    [|discriminate].
  destruct (user_by_uniquifier user_id) as [u|] eqn:Hu; [|discriminate].
  rewrite bind_item.
  destruct (data !! "validation_check") as [check|] eqn:Hcheck;
    [|discriminate].
  destruct (verify_hash check (a_password u)) eqn:Hverify; [|discriminate].
  intros [= _ <-]. exists data, user_id, check. auto.
Qed.

(** A request is given a user only with verified credentials: under
    the [token] scheme a token that decodes and whose validation check
    verifies against the password of the user it names, under the [basic]
    scheme the password of the named user; the scheme is read without
    regard to letter case. *)
Theorem load_user_needs_credentials header authorization tr user :
  load_user_from_request header authorization = (tr, inr (Some user)) ->
  exists text auth_type credential,
    header = Some text
    /\ split_once text = [auth_type; credential]
    /\ ((lower auth_type = "token"
         /\ exists data user_id check,
              jwt_decode credential = Decoded data
              /\ data !! "user_id" = Some user_id
              /\ user_by_uniquifier user_id = Some user
              /\ data !! "validation_check" = Some check
              /\ verify_hash check (a_password user) = true)
        \/ (lower auth_type = "basic"
            /\ exists parsed,
                 authorization = Some parsed
                 /\ user_by_username
                      (default EmptyString (parsed !! "username"))
                    = Some user
                 /\ verify_and_update_password
                      (default EmptyString (parsed !! "password")) user
                    = true)).
Proof.
  unfold load_user_from_request. destruct header as [text|]; [|discriminate].
  destruct (split_once text) as [|auth_type [|credential [|x l]]] eqn:Hsplit;
    try discriminate.
  destruct (String.eqb (lower auth_type) "token") eqn:Htoken.
  - apply String.eqb_eq in Htoken.
    destruct (verify_token credential) as [tr0 [e|[u|]]] eqn:Hverify;
      rewrite bind_pure; try discriminate.
    cbn [fst snd ret]. intros [= _ <-].
    exists text, auth_type, credential.
    split; [reflexivity|]. split; [exact Hsplit|].
    left. split; [exact Htoken|].
    exact (verify_token_user _ _ _ Hverify).
  - destruct (String.eqb (lower auth_type) "agent"); [discriminate|].
    destruct (String.eqb (lower auth_type) "basic") eqn:Hbasic;
      [|discriminate].
    apply String.eqb_eq in Hbasic.
    destruct authorization as [parsed|]; [|discriminate].
    cbn [or_raise]. rewrite bind_ret.
    destruct (user_by_username _) as [u|] eqn:Hu; [|discriminate].
    destruct (verify_and_update_password _ u) eqn:Hpw; [|discriminate].
    intros [= _ <-]. exists text, auth_type, credential.
    split; [reflexivity|]. split; [exact Hsplit|].
    right. split; [exact Hbasic|]. exists parsed. auto.
Qed.

(** An [Authorization] header is never passed over in silence: when it
    has no credential after its scheme, or a scheme other than [token],
    [agent] and [basic], or a token that is not accepted, the request is
    aborted with 401; a request without the header is left anonymous. *)
Theorem load_user_rejects_header text authorization :
  load_user_from_request None authorization = ret None
  /\ (length (split_once text) <> 2%nat ->
      load_user_from_request (Some text) authorization
      = abort 401 EmptyString)
  /\ (forall auth_type credential,
        split_once text = [auth_type; credential] ->
        (lower auth_type <> "token" -> lower auth_type <> "agent" ->
         lower auth_type <> "basic" ->
         load_user_from_request (Some text) authorization
         = abort 401 EmptyString)
        /\ (lower auth_type = "token" ->
            verify_token credential = ret None ->
            load_user_from_request (Some text) authorization
            = abort 401 EmptyString)).
Proof.
  split; [reflexivity|]. split.
  - intros Hlen. unfold load_user_from_request.
    destruct (split_once text) as [|a [|b [|c l]]]; try reflexivity.
    now contradiction Hlen.
  - intros auth_type credential Hsplit. unfold load_user_from_request.
    rewrite Hsplit. split.
    + intros Htoken Hagent Hbasic.
      apply String.eqb_neq in Htoken, Hagent, Hbasic.
      now rewrite Htoken, Hagent, Hbasic.
    + intros Htoken Hverify. apply String.eqb_eq in Htoken.
      now rewrite Htoken, Hverify.
Qed.


End AuthenticationFacts.

(** ** Worked examples for the further properties *)

Section FurtherExamples.
Import Demo.

(** The query under a [host__os] predicate and a hostname predicate
    returns rows of what the translator selected. *)
Lemma generate_filter_query_narrows_witness :
  exists found,
    search (Collaborators := collaborators) db VulnerabilityGeneric
      (Build_payload (Some []) None None None [])
    = inr found
    /\ Forall (fun r => In (r_vuln r) found)
              [Build_row on_host (Some web01) (Some http) None;
               Build_row on_host (Some web01) (Some https) None].
Proof.
  apply (generate_filter_query_narrows (H := collaborators) db
           VulnerabilityGeneric
           (Build_payload (Some [host_os_is "linux"]) None None None [])
           [hostnames_is "a.com"] acme params
           [Translated (Build_payload (Some []) None None None [])]).
  reflexivity.
Defined.


(** A translator that rejects [order_by]: 400 without [group_by], the
    exception itself with it. *)
Lemma filter_translator_error_witness :
  _filter (H := Lab.collaborators) db
    "{filters: [severity == high], order_by: nope}" "acme"
  = ([Sql (WorkspaceByName "acme");
      Translated (Lab.unknown_field_payload false)],
     inl (HTTPException 400 "nope"))
  /\ _filter (H := Lab.collaborators) db
       "{filters: [severity == high], order_by: nope, group_by: severity}"
       "acme"
     = ([Sql (WorkspaceByName "acme");
         Translated (Lab.unknown_field_payload true)],
        inl (AttributeError "nope")).
Proof.
  split.
  - apply (filter_translator_error (H := Lab.collaborators) db
             "{filters: [severity == high], order_by: nope}" "acme"
             "{filters: [severity == high], order_by: nope}"
             (Lab.unknown_field_payload false) acme "nope");
      reflexivity.
  - apply (filter_translator_error (H := Lab.collaborators) db
             "{filters: [severity == high], order_by: nope, group_by: severity}"
             "acme"
             "{filters: [severity == high], order_by: nope, group_by: severity}"
             (Lab.unknown_field_payload true) acme "nope");
      reflexivity.
Defined.


(** An object without [_id] is listed under its position. *)
Lemma envelope_list_entries_witness :
  env_vulnerabilities
    (_envelope_list [[("_id", PInt 7); ("name", PStr "x")];
                     [("name", PStr "y")]] None) !! 1%nat
  = Some {| e_id := PInt 1; e_key := PInt 1;
            e_value := [("name", PStr "y")] |}.
Proof.
  destruct (envelope_list_entries
              [[("_id", PInt 7); ("name", PStr "x")]; [("name", PStr "y")]]
              None) as (_ & Hentry & _).
  exact (Hentry 1%nat [("name", PStr "y")] eq_refl).
Defined.



(** The ids 1 and 3 in the workspace [acme]: the finding 3 is of the
    other workspace. *)
Lemma bulk_queries_scoped_witness :
  exists workspace,
    get_workspace (Collaborators := collaborators) db "acme" = Some workspace
    /\ Forall (fun v => In v (db_vulns db)
                        /\ v_workspace_id v = ws_id workspace) [on_host].
Proof.
  destruct (bulk_queries_scoped (H := collaborators) db
              (PList [PInt 1; PInt 3]) None "acme") as [_ Hupdate].
  apply (Hupdate [Sql (WorkspaceByName "acme")]). reflexivity.
Defined.

(** An upload under a new filename. *)
Lemma post_attachment_writes_only_new_witness :
  nonempty (vuln_workspace_check db 1 "acme") = true
  /\ exists upload,
       Some {| u_filename := "new.png"; u_read := "content" |} = Some upload
       /\ existsb (String.eqb (u_filename upload))
                  (dumped_attachments (H := collaborators) db 1) = false
       /\ (Commit = Commit
           \/ Commit = GetOrCreate
                         {| f_object_id := 1;
                            f_object_type := "vulnerability";
                            f_name := u_filename upload;
                            f_filename := u_filename upload;
                            f_content := u_read upload |}).
Proof.
  apply (post_attachment_writes_only_new (H := collaborators) db
           (Some {| u_filename := "new.png"; u_read := "content" |})
           "acme" 1 Commit).
  right. right. left. reflexivity.
Defined.

(** The attachment [old.png] is served inline. *)
Lemma get_attachment_serves_witness :
  let sent := {| sf_data := EmptyString;
                 sf_attachment_filename := "old.png";
                 sf_as_attachment := false;
                 sf_mimetype := "image/png" |} in
  nonempty (vuln_workspace_check db 1 "acme") = true
  /\ sf_attachment_filename sent = percent_spaces "old.png"
  /\ free_of " " (sf_attachment_filename sent)
  /\ sf_as_attachment sent = negb (String.prefix "image/" (sf_mimetype sent))
  /\ exists f,
       In f (db_files db) /\ f_object_id f = 1%Z
       /\ f_filename f = sf_attachment_filename sent
       /\ depot_read (Backend := Office.backend) f = inr (sf_data sent)
       /\ depot_content_type (Backend := Office.backend) f
          = inr (sf_mimetype sent).
Proof.
  apply (get_attachment_serves (H0 := Office.backend)
           db "acme" 1 "old.png" [Sql (VulnInWorkspace 1 "acme")]).
  reflexivity.
Defined.

(** Deleting [old.png]. *)
Lemma delete_attachment_removes_witness :
  fst (delete_attachment (H0 := Office.backend) db "acme" 1 "old.png")
  = [Sql (VulnInWorkspace 1 "acme");
     Session (SessionDelete screenshot); Session Commit].
Proof.
  destruct (delete_attachment_removes (H0 := Office.backend)
              db "acme" 1 "old.png") as [_ Hrun].
  apply Hrun; reflexivity.
Defined.

(** A full update without [_attachments] deletes the attachment of the
    finding. *)
Lemma perform_update_without_attachments_witness :
  _perform_update (H := collaborators) (H0 := Office.backend) db 1
    {| o_id := 1; o_tool := PNone; o_creator_command_tool := PNone |}
    {| d_attachments := None; d_fields := ∅ |} "acme" false
  = ([Session (SessionDelete screenshot); Session Commit],
     inr {| o_id := 1; o_tool := PNone; o_creator_command_tool := PNone |}).
Proof.
  apply (perform_update_without_attachments (H := collaborators)
           (H0 := Office.backend) db 1
           {| o_id := 1; o_tool := PNone; o_creator_command_tool := PNone |}
           {| d_attachments := None; d_fields := ∅ |} "acme" false []
           {| o_id := 1; o_tool := PNone; o_creator_command_tool := PNone |});
    reflexivity.
Defined.

(** Data without a [name] cannot be built. *)
Lemma perform_create_type_error_witness :
  _perform_create (H := collaborators) (H0 := Office.backend) db
    {| d_attachments := None; d_fields := {[ "cve" := PList [] ]} |}
  = ([], inl (HTTPException 400 EmptyString)).
Proof.
  apply (perform_create_type_error (H := collaborators)
           (H0 := Office.backend)).
  reflexivity.
Defined.

(** An object created without a tool is given [Web UI]. *)
Lemma perform_create_tool_witness :
  exists tr obj,
    _perform_create (H := collaborators) (H0 := Office.backend) db
      {| d_attachments := None; d_fields := {[ "name" := PStr "xss" ]} |}
    = (tr, inr obj)
    /\ truthy (o_tool obj) = true
    /\ last tr = Some (Session Commit).
Proof.
  edestruct (perform_create_tool (H := collaborators) (H0 := Office.backend)
               db
               {| d_attachments := None;
                  d_fields := {[ "name" := PStr "xss" ]} |})
    as (created & _ & _ & Htool & _ & _ & Hlast); [reflexivity|].
  do 2 eexists. split; [reflexivity|].
  split; [exact Htool | exact Hlast].
Defined.

(** A finding on the host 10 of the workspace. *)
Lemma post_load_parent_accepts_witness :
  exists id,
    find_parent (Backend := Office.backend) "Host" "acme" (PInt 10) = Some id
    /\ snd (post_load_parent (H0 := Office.backend) "acme"
              {[ "parent_type" := PStr "Host"; "parent" := PInt 10;
                 "type" := PStr "vulnerability" ]})
       = inr (<["host_id" := PInt id]> {[ "type" := PStr "vulnerability" ]}).
Proof.
  pose proof (post_load_parent_accepts (H0 := Office.backend) "acme"
                {[ "parent_type" := PStr "Host"; "parent" := PInt 10;
                   "type" := PStr "vulnerability" ]}
                (<["host_id" := PInt 10]>
                   {[ "type" := PStr "vulnerability" ]})
                [] eq_refl) as Hload.
  cbv zeta in Hload.
  destruct Hload as [id [(Hservice & _) | (_ & _ & Hfind & _)]];
    [discriminate Hservice|].
  exists id. split; [exact Hfind|].
  injection Hfind as <-. reflexivity.
Defined.

(** The old name [query] wins over [query_string]. *)
Lemma translated_args_old_names_witness :
  translated_args {[ "query" := ["a"; "b"]; "query_string" := ["c"] ]}
    !! "query_string"
  = Some ["a"].
Proof.
  destruct (translated_args_old_names
              {[ "query" := ["a"; "b"]; "query_string" := ["c"] ]})
    as [Hold _].
  exact (Hold "query" "query_string" (or_introl eq_refl)).
Defined.

(** A request with the token of [alice]. *)
Lemma load_user_needs_credentials_witness :
  exists text auth_type credential,
    Some "Token good" = Some text
    /\ split_once text = [auth_type; credential]
    /\ ((lower auth_type = "token"
         /\ exists data user_id check,
              jwt_decode (Accounts := Office.accounts) credential
              = Decoded data
              /\ data !! "user_id" = Some user_id
              /\ user_by_uniquifier (Accounts := Office.accounts) user_id
                 = Some Office.alice
              /\ data !! "validation_check" = Some check
              /\ verify_hash (Accounts := Office.accounts) check
                   (a_password Office.alice) = true)
        \/ (lower auth_type = "basic"
            /\ exists parsed : gmap string string,
                 None = Some parsed
                 /\ user_by_username (Accounts := Office.accounts)
                      (default EmptyString (parsed !! "username"))
                    = Some Office.alice
                 /\ verify_and_update_password (Accounts := Office.accounts)
                      (default EmptyString (parsed !! "password"))
                      Office.alice
                    = true)).
Proof.
  apply (load_user_needs_credentials (H := Office.accounts)
           (Some "Token good") None []).
  reflexivity.
Defined.

(** A header with a scheme and nothing else, and one with an expired
    token. *)
Lemma load_user_rejects_header_witness :
  load_user_from_request (H := Office.accounts) (Some "Token") None
  = abort 401 EmptyString
  /\ load_user_from_request (H := Office.accounts) (Some "token old") None
     = abort 401 EmptyString.
Proof.
  split.
  - destruct (load_user_rejects_header (H := Office.accounts) "Token" None)
      as (_ & Hshort & _).
    apply Hshort. discriminate.
  - destruct (load_user_rejects_header (H := Office.accounts) "token old"
                None) as (_ & _ & Hscheme).
    destruct (Hscheme "token" "old" eq_refl) as [_ Htoken].
    apply Htoken; reflexivity.
Defined.


End FurtherExamples.
